(** * Customer churn ETL: a shallow embedding and its specification

    Source files embedded here:
    - [src/churn_ml/utils/exceptions.py]      ([CustomerChurnException])
    - [src/churn_ml/etl/customer_churn_etl.py] ([CustomerChurnETL])

    Python exceptions are modelled by a [result] type whose failure case
    carries the raised exception together with the line of the current frame
    at which it surfaced (what [sys.exc_info()] exposes as [tb_lineno] to a
    handler of that frame).  Table cells are strings (a Python [str] held
    as its UTF-8 encoding), numbers (exact rationals, abstracting binary64
    rounding) or the missing value NaN.
    Logging calls have no bearing on any result and are left out. *)

From Stdlib Require Import List String Ascii Bool Arith NArith ZArith QArith Lia.
From Stdlib Require Import DecimalString.
Import ListNotations.
Local Close Scope Q_scope.
Local Open Scope string_scope.
Local Open Scope list_scope.

(** ** Exceptions ([src/churn_ml/utils/exceptions.py]) *)

(** What [sys.exc_info()[2]] exposes when it is not [None]: the line of the
    handling frame and the file of that frame's code object. *)
Record traceback : Type := mk_traceback {
  tb_lineno : nat;
  co_filename : string
}.

(** The exceptions that flow through the pipeline.  [LibraryError] stands for
    any exception raised inside a collaborator (kagglehub, pandas, pymongo). *)
Inductive exn : Type :=
| ValueError (msg : string)
| KeyError (key : string)
| LibraryError (name : string)
| CustomerChurnException (error_message : exn)
                         (lineno : option nat) (file_name : option string).

(** [CustomerChurnException.__init__(error_message, error_details)], where
    [exc_tb] is the third component of [error_details.exc_info()]. *)
Definition CustomerChurnException_init (error_message : exn)
    (exc_tb : option traceback) : exn :=
  match exc_tb with
  | Some tb =>
      CustomerChurnException error_message
        (Some (tb_lineno tb)) (Some (co_filename tb))
  | None => CustomerChurnException error_message None None
  end.

Definition exn_lineno (e : exn) : option nat :=
  match e with
  | CustomerChurnException _ l _ => l
  | _ => None
  end.

Definition exn_file_name (e : exn) : option string :=
  match e with
  | CustomerChurnException _ _ f => f
  | _ => None
  end.

Definition is_CustomerChurnException (e : exn) : bool :=
  match e with
  | CustomerChurnException _ _ _ => true
  | _ => false
  end.

(** ** The exception monad *)

(** [Raise e l]: exception [e] is propagating, and it left the current frame
    at line [l]. *)
Inductive result (A : Type) : Type :=
| Ok (a : A)
| Raise (e : exn) (line : nat).
Arguments Ok {A} a.
Arguments Raise {A} e line.

Definition bind {A B : Type} (r : result A) (k : A -> result B) : result B :=
  match r with
  | Ok a => k a
  | Raise e l => Raise e l
  end.

Declare Scope result_scope.
Delimit Scope result_scope with result.
Notation "'do' x <- r ; k" := (bind r (fun x => k))
  (at level 10, x name, r at level 100, k at level 200) : result_scope.
Notation "'do_' r ; k" := (bind r (fun _ => k))
  (at level 10, r at level 100, k at level 200) : result_scope.
Local Open Scope result_scope.

(** A call made at line [l] of the current frame: an exception coming out of
    the callee is seen by this frame at line [l]. *)
Definition at_line {A : Type} (l : nat) (r : result A) : result A :=
  match r with
  | Ok a => Ok a
  | Raise e _ => Raise e l
  end.

(** [try: body / except Exception as e: raise CustomerChurnException(e, sys)],
    in a function of file [file], the [raise] standing at line
    [handler_line].  Inside the handler [sys.exc_info()] is the exception
    being handled, so the traceback is present. *)
Definition try_except {A : Type} (file : string) (handler_line : nat)
    (body : result A) : result A :=
  match body with
  | Ok a => Ok a
  | Raise e l =>
      Raise (CustomerChurnException_init e (Some (mk_traceback l file)))
            handler_line
  end.

Definition raised {A : Type} (r : result A) : option exn :=
  match r with
  | Ok _ => None
  | Raise e _ => Some e
  end.

(** ** Table cells and strings *)

(** A number other than NaN.  Integers and floats are both [Finite]: Python
    compares them by value ([1 == 1.0]). *)
Inductive number : Type :=
| Finite (q : Q)
| Infinity (negative : bool).

Definition number_eqb (a b : number) : bool :=
  match a, b with
  | Finite x, Finite y => Qeq_bool x y
  | Infinity s, Infinity t => Bool.eqb s t
  | _, _ => false
  end.

(** A scalar held in a table cell or in a record: a number, a string, or the
    missing value ([np.nan], rendered as null by the document store). *)
Inductive cell : Type :=
| VNum (n : number)
| VStr (s : string)
| VNaN.

(** Python's [==] on scalars, with the convention of pandas' hash tables
    that missing values match each other. *)
Definition cell_eqb (a b : cell) : bool :=
  match a, b with
  | VNum x, VNum y => number_eqb x y
  | VStr s, VStr t => String.eqb s t
  | VNaN, VNaN => true
  | _, _ => false
  end.

Definition is_string (c : cell) : bool :=
  match c with VStr _ => true | _ => false end.

(** A Python [str] is held as its UTF-8 encoding.  The code points for
    which [str.isspace()] holds: *)
Definition python_whitespace : list N :=
  [ 9; 10; 11; 12; 13; 28; 29; 30; 31; 32; 133; 160; 5760;
    8192; 8193; 8194; 8195; 8196; 8197; 8198; 8199; 8200; 8201; 8202;
    8232; 8233; 8239; 8287; 12288 ]%N.

(** [str.isspace()] on one character. *)
Definition is_space (cp : N) : bool := existsb (N.eqb cp) python_whitespace.

(** The UTF-8 encoding of one code point. *)
Definition utf8_encode (cp : N) : string :=
  (if cp <? 128 then
     String (ascii_of_N cp) EmptyString
   else if cp <? 2048 then
     String (ascii_of_N (192 + cp / 64))
       (String (ascii_of_N (128 + cp mod 64)) EmptyString)
   else if cp <? 65536 then
     String (ascii_of_N (224 + cp / 4096))
       (String (ascii_of_N (128 + (cp / 64) mod 64))
          (String (ascii_of_N (128 + cp mod 64)) EmptyString))
   else
     String (ascii_of_N (240 + cp / 262144))
       (String (ascii_of_N (128 + (cp / 4096) mod 64))
          (String (ascii_of_N (128 + (cp / 64) mod 64))
             (String (ascii_of_N (128 + cp mod 64)) EmptyString))))%N.

(** The text made of the given code points. *)
Fixpoint encode_all (cps : list N) : string :=
  match cps with
  | [] => EmptyString
  | cp :: rest => utf8_encode cp ++ encode_all rest
  end.

(** The payload of a continuation byte. *)
Definition continuation (a : ascii) : option N :=
  let x := N_of_ascii a in
  (if (128 <=? x) && (x <? 192) then Some (x - 128) else None)%N.

(** The first character of a UTF-8 text, when it is one of the characters
    up to U+FFFF (which include every whitespace character), and the number
    of its bytes. *)
Definition decode_first (s : string) : option (N * nat) :=
  match s with
  | EmptyString => None
  | String a s1 =>
      let x := N_of_ascii a in
      (if x <? 128 then Some (x, 1%nat)
       else if x <? 194 then None
       else if x <? 224 then
         match s1 with
         | String b _ =>
             match continuation b with
             | Some y => Some ((x - 192) * 64 + y, 2%nat)
             | None => None
             end
         | EmptyString => None
         end
       else if x <? 240 then
         match s1 with
         | String b (String c _) =>
             match continuation b, continuation c with
             | Some y, Some z =>
                 let cp := (x - 224) * 4096 + y * 64 + z in
                 if cp <? 2048 then None else Some (cp, 3%nat)
             | _, _ => None
             end
         | _ => None
         end
       else None)%N
  end.

(** The number of bytes of the whitespace character a text starts with,
    0 when it starts with none. *)
Definition space_width (s : string) : nat :=
  match decode_first s with
  | Some (cp, w) => if is_space cp then w else 0%nat
  | None => 0%nat
  end.

(** [str.lstrip()]: leading whitespace characters go, one at a time. *)
Fixpoint lstrip (s : string) : string :=
  match s with
  | EmptyString => EmptyString
  | String _ s1 =>
      match space_width s with
      | 0%nat => s
      | 1%nat => lstrip s1
      | 2%nat =>
          match s1 with
          | String _ s2 => lstrip s2
          | EmptyString => s
          end
      | _ =>
          match s1 with
          | String _ (String _ s3) => lstrip s3
          | _ => s
          end
      end
  end.

(** A text made of whitespace characters only. *)
Definition blank (s : string) : bool :=
  match lstrip s with
  | EmptyString => true
  | String _ _ => false
  end.

(** [str.rstrip()]: the text is cut where its remainder is blank. *)
Fixpoint rstrip (s : string) : string :=
  match s with
  | EmptyString => EmptyString
  | String a s1 => if blank s then EmptyString else String a (rstrip s1)
  end.

(** [str.strip()] with no argument. *)
Definition strip (s : string) : string := rstrip (lstrip s).


(** [sep.join(parts)]. *)
Fixpoint join (sep : string) (parts : list string) : string :=
  match parts with
  | [] => ""
  | [x] => x
  | x :: rest => x ++ sep ++ join sep rest
  end.

(** ** Data frames and records *)

Definition Series : Type := list cell.

(** A pandas [DataFrame], row-major: the column labels and one list of cells
    per row. *)
Record DataFrame : Type := mk_DataFrame {
  columns : list string;
  rows : list (list cell)
}.

(** One output document: column label to value, in column order. *)
Definition record : Type := list (string * cell).

Fixpoint index_of (name : string) (cols : list string) : option nat :=
  match cols with
  | [] => None
  | c :: cs =>
      if String.eqb c name then Some 0%nat
      else option_map S (index_of name cs)
  end.

Fixpoint nodup_labels (cols : list string) : bool :=
  match cols with
  | [] => true
  | c :: cs =>
      match index_of c cs with
      | Some _ => false
      | None => nodup_labels cs
      end
  end.

(** The shape invariant of a frame: distinct column labels (as [read_csv]
    produces them) and one cell per column in every row. *)
Definition well_formed (df : DataFrame) : bool :=
  nodup_labels (columns df) &&
  forallb (fun r => Nat.eqb (List.length r) (List.length (columns df)))
          (rows df).

(** [df.empty]: some axis has length zero. *)
Definition empty (df : DataFrame) : bool :=
  match columns df, rows df with
  | [], _ => true
  | _, [] => true
  | _, _ => false
  end.

Definition cell_at (i : nat) (r : list cell) : cell := nth i r VNaN.

Fixpoint set_nth (i : nat) (v : cell) (r : list cell) {struct r}
  : list cell :=
  match r, i with
  | [], _ => []
  | _ :: r', O => v :: r'
  | x :: r', S i' => x :: set_nth i' v r'
  end.

(** [df[name]]: the column as a Series, [KeyError] when there is no such
    label. *)
Definition getitem (df : DataFrame) (name : string) : result Series :=
  match index_of name (columns df) with
  | Some i => Ok (map (cell_at i) (rows df))
  | None => Raise (KeyError name) 0
  end.

Fixpoint zip_with {A B C : Type} (f : A -> B -> C) (l : list A) (m : list B)
  : list C :=
  match l, m with
  | a :: l', b :: m' => f a b :: zip_with f l' m'
  | _, _ => []
  end.

(** [df[name] = values], for a Series [values] that carries the frame's own
    index (the only use the pipeline makes of it): positional assignment
    into an existing column, or a new last column. *)
Definition setitem (df : DataFrame) (name : string) (values : Series)
  : DataFrame :=
  match index_of name (columns df) with
  | Some i =>
      mk_DataFrame (columns df)
        (zip_with (fun v r => set_nth i v r) values (rows df))
  | None =>
      mk_DataFrame (columns df ++ [name])
        (zip_with (fun v r => r ++ [v]) values (rows df))
  end.

(** The scan behind [duplicated(keep="first")]: a row is kept when its key
    matches none of the keys seen before it. *)
Fixpoint keep_first (key : list cell -> cell) (seen : list cell)
    (rs : list (list cell)) : list (list cell) :=
  match rs with
  | [] => []
  | r :: rs' =>
      if existsb (cell_eqb (key r)) seen
      then keep_first key seen rs'
      else r :: keep_first key (key r :: seen) rs'
  end.

(** [df.drop_duplicates(subset=[subset], keep="first")]. *)
Definition drop_duplicates (subset : string) (df : DataFrame)
  : result DataFrame :=
  match index_of subset (columns df) with
  | Some i => Ok (mk_DataFrame (columns df) (keep_first (cell_at i) [] (rows df)))
  | None => Raise (KeyError subset) 0
  end.

(** [Series.map(d)] for a plain dict [d]: a value that is not a key of [d]
    maps to NaN. *)
Definition map_dict (d : list (cell * cell)) (c : cell) : cell :=
  match find (fun kv => cell_eqb (fst kv) c) d with
  | Some kv => snd kv
  | None => VNaN
  end.

Definition Series_map (d : list (cell * cell)) (s : Series) : Series :=
  map (map_dict d) s.

(** [Series.str.strip()]: strings are stripped, anything else is NaN. *)
Definition str_strip (c : cell) : cell :=
  match c with
  | VStr s => VStr (strip s)
  | _ => VNaN
  end.

(** [Series.replace(old, new)] on one value. *)
Definition replace (old new c : cell) : cell :=
  if cell_eqb c old then new else c.

(** [df.to_dict(orient="records")]. *)
Definition to_dict_records (df : DataFrame) : list record :=
  map (fun r => combine (columns df) r) (rows df).

(** [d.get(name)] on a record. *)
Fixpoint lookup (name : string) (r : record) : option cell :=
  match r with
  | [] => None
  | (k, v) :: r' => if String.eqb k name then Some v else lookup name r'
  end.

(** ** The document store (pymongo collaborator) *)

Inductive store_op : Type :=
| OpMongoClient | OpDatabase | OpCollection
| OpDeleteMany | OpCreateIndex | OpInsertMany.

(** The calls that reach the client library, as the loader issues them. *)
Inductive store_call : Type :=
| CallMongoClient (url : option string) (tlsCAFile : string)
                  (serverSelectionTimeoutMS : nat)
| CallDeleteMany
| CallCreateIndex (field : string) (unique : bool)
| CallInsertMany (docs : list record) (ordered : bool)
| CallClose.

Definition is_close (c : store_call) : bool :=
  match c with CallClose => true | _ => false end.

(** The world the loader runs against: which operations the store makes
    raise, the target collection with its unique indexes, the number of
    client connections currently open, and the log of calls so far. *)
Record Mongo : Type := mk_Mongo {
  raises : store_op -> bool;
  documents : list record;
  unique_fields : list string;
  open_clients : nat;
  calls : list store_call
}.

Definition M (A : Type) : Type := Mongo -> result A * Mongo.

Definition ret {A : Type} (a : A) : M A := fun w => (Ok a, w).

Definition bindM {A B : Type} (m : M A) (k : A -> M B) : M B :=
  fun w =>
    match m w with
    | (Ok a, w') => k a w'
    | (Raise e l, w') => (Raise e l, w')
    end.

Declare Scope store_scope.
Delimit Scope store_scope with store.
Notation "'run' x <- m ; k" := (bindM m (fun x => k))
  (at level 10, x name, m at level 100, k at level 200) : store_scope.
Notation "'run_' m ; k" := (bindM m (fun _ => k))
  (at level 10, m at level 100, k at level 200) : store_scope.
Local Open Scope store_scope.

Definition lift {A : Type} (r : result A) : M A := fun w => (r, w).

Definition at_lineM {A : Type} (l : nat) (m : M A) : M A :=
  fun w => let (r, w') := m w in (at_line l r, w').

Definition try_exceptM {A : Type} (file : string) (handler_line : nat)
    (body : M A) : M A :=
  fun w => let (r, w') := body w in (try_except file handler_line r, w').

Definition log (c : store_call) (w : Mongo) : Mongo :=
  mk_Mongo (raises w) (documents w) (unique_fields w) (open_clients w)
           (calls w ++ [c]).

(** An operation that the store may refuse. *)
Definition guarded {A : Type} (op : store_op) (err : string) (m : M A) : M A :=
  fun w => if raises w op then (Raise (LibraryError err) 0, w) else m w.

Definition MongoClient (url : option string) (tlsCAFile : string)
    (serverSelectionTimeoutMS : nat) : M unit :=
  fun w =>
    guarded OpMongoClient "pymongo.errors.ConfigurationError"
      (fun w => (Ok tt,
         mk_Mongo (raises w) (documents w) (unique_fields w)
                  (S (open_clients w)) (calls w)))
      (log (CallMongoClient url tlsCAFile serverSelectionTimeoutMS) w).

(** [client[name]] and [db[name]]: local handles, no call to the store. *)
Definition client_getitem (name : option string) : M unit :=
  guarded OpDatabase "pymongo.errors.InvalidName" (ret tt).

Definition db_getitem (name : option string) : M unit :=
  guarded OpCollection "pymongo.errors.InvalidName" (ret tt).

Definition delete_many : M unit :=
  fun w =>
    guarded OpDeleteMany "pymongo.errors.ServerSelectionTimeoutError"
      (fun w => (Ok tt,
         mk_Mongo (raises w) [] (unique_fields w) (open_clients w) (calls w)))
      (log CallDeleteMany w).

Definition create_index (field : string) (unique : bool) : M unit :=
  fun w =>
    guarded OpCreateIndex "pymongo.errors.OperationFailure"
      (fun w => (Ok tt,
         mk_Mongo (raises w) (documents w)
                  (if unique then field :: unique_fields w
                   else unique_fields w)
                  (open_clients w) (calls w)))
      (log (CallCreateIndex field unique) w).

Definition field_eqb (a b : option cell) : bool :=
  match a, b with
  | Some x, Some y => cell_eqb x y
  | None, None => true
  | _, _ => false
  end.

(** A document is rejected when its "_id", if it brings one, is the "_id"
    of a document already in the collection (every collection has the unique
    index on "_id"; a document without one is given a fresh one by the
    client), or when, on some uniquely indexed field, it agrees with a
    document already in the collection. *)
Definition violates (uf : list string) (existing : list record) (d : record)
  : bool :=
  match lookup "_id" d with
  | Some v => existsb (fun e => field_eqb (lookup "_id" e) (Some v)) existing
  | None => false
  end
  || existsb (fun f =>
       existsb (fun e => field_eqb (lookup f e) (lookup f d)) existing) uf.

(** The unordered bulk write: every document is attempted; the result is the
    collection afterwards, the accepted documents and the number rejected. *)
Fixpoint bulk_write (uf : list string) (existing : list record)
    (docs : list record) : list record * list record * nat :=
  match docs with
  | [] => (existing, [], 0%nat)
  | d :: ds =>
      if violates uf existing d then
        match bulk_write uf existing ds with
        | (coll, ok, bad) => (coll, ok, S bad)
        end
      else
        match bulk_write uf (existing ++ [d]) ds with
        | (coll, ok, bad) => (coll, d :: ok, bad)
        end
  end.

(** [collection.insert_many(docs, ordered=False)]: the inserted ids on
    success; [BulkWriteError] once all documents were tried and some were
    rejected. *)
Definition insert_many (docs : list record) (ordered : bool)
  : M (list record) :=
  fun w =>
    guarded OpInsertMany "pymongo.errors.ServerSelectionTimeoutError"
      (fun w =>
         match bulk_write (unique_fields w) (documents w) docs with
         | (coll, ok, bad) =>
             let w' := mk_Mongo (raises w) coll (unique_fields w)
                                (open_clients w) (calls w) in
             match bad with
             | O => (Ok ok, w')
             | S _ => (Raise (LibraryError "pymongo.errors.BulkWriteError") 0, w')
             end
         end)
      (log (CallInsertMany docs ordered) w).

(** [client.close()]. *)
Definition close : M unit :=
  fun w =>
    (Ok tt,
     mk_Mongo (raises w) (documents w) (unique_fields w)
              (pred (open_clients w)) (calls w ++ [CallClose])).

(** ** The pipeline ([src/churn_ml/etl/customer_churn_etl.py]) *)

(** The files of the two modules, as their code objects report them. *)
Definition etl_file : string := "src/churn_ml/etl/customer_churn_etl.py".
Definition script_file : string := "scripts/run_etl.py".

(** The attributes [__init__] sets; [os.getenv] gives [None] for an unset
    variable. *)
Record CustomerChurnETL : Type := mk_CustomerChurnETL {
  mongodb_url : option string;
  data_source : option string;
  database : option string;
  collection : option string;
  ca_file : string
}.

(** [not value] for a value read from the environment. *)
Definition falsy (value : option string) : bool :=
  match value with
  | None => true
  | Some EmptyString => true
  | Some (String _ _) => false
  end.

Definition required_vars (self : CustomerChurnETL)
  : list (string * option string) :=
  [ ("MONGODB_URL", mongodb_url self);
    ("DATA_SOURCE", data_source self);
    ("MONGODB_DATABASE", database self);
    ("MONGODB_COLLECTION", collection self) ].

(** The keys of [required_vars]. *)
Definition required_names : list string :=
  ["MONGODB_URL"; "DATA_SOURCE"; "MONGODB_DATABASE"; "MONGODB_COLLECTION"].

Definition missing_vars (self : CustomerChurnETL) : list string :=
  map fst (filter (fun kv => falsy (snd kv)) (required_vars self)).

Definition missing_message (missing : list string) : string :=
  "Missing required environment variables: " ++ join ", " missing.

Definition _validate_env (self : CustomerChurnETL) : result unit :=
  let missing := missing_vars self in
  match missing with
  | [] => Ok tt
  | _ :: _ => Raise (ValueError (missing_message missing)) 67
  end.

Inductive errors_mode : Type := errors_raise | errors_coerce.

(** The dict of line 111. *)
Definition senior_citizen_map : list (cell * cell) :=
  [ (VNum (Finite (1 # 1)), VStr "Yes"); (VNum (Finite (0 # 1)), VStr "No") ].

Section Pipeline.

(** The process environment and the collaborators. *)
Variable getenv : string -> option string.
Variable certifi_where : string.
Variable dataset_download : option string -> result string.
Variable glob_csv : string -> list string.
Variable read_csv : string -> result DataFrame.

(** Text of a number ([str(x)]) and pandas' numeric parser: the number a
    text denotes, [None] when it denotes none (which includes the
    spellings of NaN). *)
Variable str_of_num : number -> string.
Variable to_double : string -> option number.

Definition CustomerChurnETL_init : result CustomerChurnETL :=
  try_except etl_file 52
    (let self :=
       mk_CustomerChurnETL (getenv "MONGODB_URL") (getenv "DATA_SOURCE")
         (getenv "MONGODB_DATABASE") (getenv "MONGODB_COLLECTION")
         certifi_where in
     do_ at_line 47 (_validate_env self);
     Ok self).

Definition extract_data (self : CustomerChurnETL) : result DataFrame :=
  try_except etl_file 94
    (do dataset_dir <- at_line 78 (dataset_download (data_source self));
     let csv_files := glob_csv dataset_dir in
     do_ (if Nat.eqb (List.length csv_files) 1 then Ok tt
          else Raise
                 (ValueError
                    "Expected exactly one CSV file in dataset directory") 82);
     do df <- at_line 84 (read_csv (hd "" csv_files));
     do_ (if empty df
          then Raise (ValueError "Extracted dataset is empty") 87
          else Ok tt);
     Ok df).

(** [Series.astype(str)] on one value. *)
Definition astype_str (c : cell) : cell :=
  match c with
  | VNum n => VStr (str_of_num n)
  | VStr s => VStr s
  | VNaN => VStr "nan"
  end.

(** [pd.to_numeric(_, errors=errors)] on one value. *)
Definition to_numeric_cell (errors : errors_mode) (c : cell) : result cell :=
  match c with
  | VNum n => Ok (VNum n)
  | VNaN => Ok VNaN
  | VStr s =>
      match to_double s with
      | Some n => Ok (VNum n)
      | None =>
          match errors with
          | errors_coerce => Ok VNaN
          | errors_raise =>
              Raise (ValueError ("Unable to parse string " ++ s)) 0
          end
      end
  end.

Fixpoint to_numeric (errors : errors_mode) (s : Series) : result Series :=
  match s with
  | [] => Ok []
  | c :: s' =>
      do c' <- to_numeric_cell errors c;
      do s'' <- to_numeric errors s';
      Ok (c' :: s'')
  end.

(** Lines 114-119 on one value. *)
Definition clean_total_charges (c : cell) : cell :=
  replace (VStr "") VNaN (str_strip (astype_str c)).

(** Lines 114-123 on one value. *)
Definition coerce_total_charges (c : cell) : result cell :=
  to_numeric_cell errors_coerce (clean_total_charges c).

Definition transform_data (df : DataFrame) : result (list record) :=
  try_except etl_file 135
    (do_ (if empty df
          then Raise (ValueError "Cannot transform an empty DataFrame") 105
          else Ok tt);
     do df <- at_line 108 (drop_duplicates "customerID" df);
     do senior <- at_line 111 (getitem df "SeniorCitizen");
     let df := setitem df "SeniorCitizen"
                 (Series_map senior_citizen_map senior) in
     do total <- at_line 115 (getitem df "TotalCharges");
     let df := setitem df "TotalCharges" (map clean_total_charges total) in
     do total <- at_line 122 (getitem df "TotalCharges");
     do total <- at_line 121 (to_numeric errors_coerce total);
     let df := setitem df "TotalCharges" total in
     let records := to_dict_records df in
     Ok records).

Definition load_data (self : CustomerChurnETL) (records : list record)
  : M nat :=
  try_exceptM etl_file 176
    (match records with
     | [] => ret 0%nat
     | _ :: _ =>
         run_ at_lineM 148
                (MongoClient (mongodb_url self) (ca_file self) 5000);
         run_ at_lineM 154 (client_getitem (database self));
         run_ at_lineM 155 (db_getitem (collection self));
         run_ at_lineM 158 delete_many;
         run_ at_lineM 161 (create_index "customerID" true);
         run result <- at_lineM 163 (insert_many records false);
         let inserted_count := List.length result in
         run_ close;
         ret inserted_count
     end).

Definition run_etl (self : CustomerChurnETL) : M unit :=
  try_exceptM etl_file 196
    (run df <- at_lineM 185 (lift (extract_data self));
     run records <- at_lineM 186 (lift (transform_data df));
     run_ at_lineM 187 (load_data self records);
     ret tt).

(** [main] of [scripts/run_etl.py]. *)
Definition main : M unit :=
  try_exceptM script_file 33
    (run etl <- at_lineM 26 (lift CustomerChurnETL_init);
     run_ at_lineM 27 (run_etl etl);
     ret tt).

End Pipeline.

(** ** Derived views used in the statements *)

(** Order-preserving selection of elements. *)
Inductive subsequence {A : Type} : list A -> list A -> Prop :=
| subsequence_nil : subsequence [] []
| subsequence_skip x l m : subsequence l m -> subsequence l (x :: m)
| subsequence_keep x l m : subsequence l m -> subsequence (x :: l) (x :: m).

(** No two keys of the list match. *)
Fixpoint distinct_keys (l : list cell) : bool :=
  match l with
  | [] => true
  | k :: l' => negb (existsb (cell_eqb k) l') && distinct_keys l'
  end.

(** The first row whose key matches [k]. *)
Definition first_with (key : list cell -> cell) (k : cell)
    (rs : list (list cell)) : option (list cell) :=
  find (fun r => cell_eqb (key r) k) rs.

(** One row after [df[name] = df[name].<f>]. *)
Definition update_at (i : nat) (f : cell -> cell) (r : list cell) : list cell :=
  set_nth i (f (cell_at i r)) r.

Section Views.

Variable str_of_num : number -> string.
Variable to_double : string -> option number.

(** What [to_numeric(errors="coerce")] leaves in one cell. *)
Definition numeric_or_nan (c : cell) : cell :=
  match c with
  | VStr s =>
      match to_double s with
      | Some n => VNum n
      | None => VNaN
      end
  | _ => c
  end.

(** One row through lines 111-123, the columns "SeniorCitizen" and
    "TotalCharges" standing at positions [si] and [ti]. *)
Definition transform_row (si ti : nat) (r : list cell) : list cell :=
  update_at ti numeric_or_nan
    (update_at ti (clean_total_charges str_of_num)
       (update_at si (map_dict senior_citizen_map) r)).

(** The string form of a value: the text of a string, the printed form of
    a number, "nan" for the missing value. *)
Definition spec_text (c : cell) : string :=
  match c with
  | VNum n => str_of_num n
  | VStr s => s
  | VNaN => "nan"
  end.

(** The coercion of "TotalCharges" in the words of the specification: trim
    the string form; an empty text and a text that does not parse are
    missing; a text that parses is its number. *)
Definition spec_coerce (c : cell) : cell :=
  match strip (spec_text c) with
  | EmptyString => VNaN
  | String a t =>
      match to_double (String a t) with
      | Some n => VNum n
      | None => VNaN
      end
  end.

End Views.

(** The normalisation of "SeniorCitizen" as the code performs it: 1 is
    "Yes", 0 is "No", anything else is missing. *)
Definition spec_senior_citizen (c : cell) : cell :=
  if cell_eqb c (VNum (Finite (1 # 1))) then VStr "Yes"
  else if cell_eqb c (VNum (Finite (0 # 1))) then VStr "No"
  else VNaN.

(** Printable ASCII other than the space. *)
Definition visible (a : ascii) : bool :=
  ((33 <=? N_of_ascii a) && (N_of_ascii a <=? 126))%N.

(** A text that starts with a printable character other than the space. *)
Definition first_visible (s : string) : bool :=
  match s with
  | EmptyString => false
  | String a _ => visible a
  end.

(** A text that ends with a printable character other than the space. *)
Fixpoint last_visible (s : string) : bool :=
  match s with
  | EmptyString => false
  | String a EmptyString => visible a
  | String _ s1 => last_visible s1
  end.

(** A text that holds a printable character other than the space. *)
Fixpoint has_visible (s : string) : bool :=
  match s with
  | EmptyString => false
  | String a s1 => visible a || has_visible s1
  end.

(** ** Concrete collaborators for the examples *)

Definition digit_of (c : ascii) : option Z :=
  let n := nat_of_ascii c in
  if ((48 <=? n)%nat && (n <=? 57)%nat)%bool
  then Some (Z.of_nat (n - 48))
  else None.

Fixpoint read_digits (s : string) (acc : Z) (n : nat) : Z * nat * string :=
  match s with
  | EmptyString => (acc, n, EmptyString)
  | String c s' =>
      match digit_of c with
      | Some d => read_digits s' (10 * acc + d)%Z (S n)
      | None => (acc, n, s)
      end
  end.

Definition decimal_unsigned (s : string) : option Q :=
  match read_digits s 0%Z 0%nat with
  | (i, ni, EmptyString) =>
      if Nat.eqb ni 0 then None else Some (i # 1)%Q
  | (i, ni, String "." rest) =>
      match read_digits rest i 0%nat with
      | (m, nf, EmptyString) =>
          if Nat.eqb (ni + nf) 0 then None
          else Some (m # Z.to_pos (10 ^ Z.of_nat nf))%Q
      | _ => None
      end
  | _ => None
  end.

(** A parser for plain decimal literals (sign, digits, optional fraction):
    the texts of that form are read by pandas as the numbers they spell.
    It instantiates [to_double] in the examples; pandas reads more forms
    (exponents, infinities). *)
Definition decimal_literal (s : string) : option number :=
  match s with
  | String "-" s' => option_map (fun q => Finite (Qopp q)) (decimal_unsigned s')
  | String "+" s' => option_map Finite (decimal_unsigned s')
  | _ => option_map Finite (decimal_unsigned s)
  end.

(** The text of a number in the examples, which print whole numbers only. *)
Definition whole_number_text (n : number) : string :=
  match n with
  | Finite q =>
      DecimalString.NilZero.string_of_int
        (Z.to_int (Qnum q / Zpos (Qden q)))
  | Infinity true => "-inf"
  | Infinity false => "inf"
  end.

Definition example_frame : DataFrame :=
  mk_DataFrame ["customerID"; "SeniorCitizen"; "TotalCharges"]
    [ [VStr "A"; VNum (Finite (1 # 1)); VStr "10.5"];
      [VStr "A"; VNum (Finite (0 # 1)); VStr ""];
      [VStr "B"; VNum (Finite (1 # 1)); VStr "bad"] ].

(** A table whose "SeniorCitizen" holds a value other than 0 and 1. *)
Definition odd_frame : DataFrame :=
  mk_DataFrame ["customerID"; "SeniorCitizen"; "TotalCharges"]
    [ [VStr "C"; VNum (Finite (2 # 1)); VStr " 29.85 "] ].

Definition empty_frame : DataFrame :=
  mk_DataFrame ["customerID"; "SeniorCitizen"; "TotalCharges"] [].

Definition example_batch : list record :=
  [ [("customerID", VStr "A"); ("SeniorCitizen", VStr "Yes");
     ("TotalCharges", VNum (Finite (105 # 10)))];
    [("customerID", VStr "B"); ("SeniorCitizen", VStr "Yes");
     ("TotalCharges", VNaN)] ].

Definition full_env (name : string) : option string :=
  if String.eqb name "MONGODB_URL" then Some "mongodb://localhost:27017"
  else if String.eqb name "DATA_SOURCE" then Some "blastchar/telco-customer-churn"
  else if String.eqb name "MONGODB_DATABASE" then Some "churn"
  else if String.eqb name "MONGODB_COLLECTION" then Some "customers"
  else None.

(** An environment with the database name unset and the collection name
    set to the empty string. *)
Definition partial_env (name : string) : option string :=
  if String.eqb name "MONGODB_URL" then Some "mongodb://localhost:27017"
  else if String.eqb name "DATA_SOURCE" then Some "blastchar/telco-customer-churn"
  else if String.eqb name "MONGODB_COLLECTION" then Some ""
  else None.

Definition example_ca_file : string := "/etc/ssl/cacert.pem".

Definition example_etl : CustomerChurnETL :=
  mk_CustomerChurnETL (full_env "MONGODB_URL") (full_env "DATA_SOURCE")
    (full_env "MONGODB_DATABASE") (full_env "MONGODB_COLLECTION")
    example_ca_file.

Definition example_download (source : option string) : result string :=
  match source with
  | Some _ => Ok "/cache/telco"
  | None => Raise (LibraryError "TypeError") 0
  end.

Definition one_csv (dir : string) : list string := ["/cache/telco/churn.csv"].
Definition no_csv (dir : string) : list string := [].

Definition example_read_csv (path : string) : result DataFrame :=
  Ok example_frame.

Definition empty_read_csv (path : string) : result DataFrame :=
  Ok empty_frame.

(** A reachable store holding one stale document, and the same store
    unreachable when the first command is sent. *)
Definition store_up : Mongo :=
  mk_Mongo (fun _ => false) [[("customerID", VStr "Z")]] [] 0 [].

Definition store_down : Mongo :=
  mk_Mongo (fun op => match op with OpDeleteMany => true | _ => false end)
           [[("customerID", VStr "Z")]] [] 0 [].

(** ** Further embedded code *)

(** The store calls of one complete run of [load_data] on a non-empty
    batch (lines 148-166), in the order the code issues them. *)
Definition load_calls (self : CustomerChurnETL) (records : list record)
  : list store_call :=
  [ CallMongoClient (mongodb_url self) (ca_file self) 5000;
    CallDeleteMany;
    CallCreateIndex "customerID" true;
    CallInsertMany records false;
    CallClose ].

(** [str(n)] for a line number. *)
Definition str_nat (n : nat) : string :=
  DecimalString.NilZero.string_of_uint (Nat.to_uint n).

(** How an f-string renders [self.lineno] and [self.file_name]. *)
Definition str_lineno (l : option nat) : string :=
  match l with
  | Some n => str_nat n
  | None => "None"
  end.

Definition str_file_name (f : option string) : string :=
  match f with
  | Some name => name
  | None => "None"
  end.

(** The exception at the bottom of a chain of [CustomerChurnException]s. *)
Fixpoint root_cause (e : exn) : exn :=
  match e with
  | CustomerChurnException m _ _ => root_cause m
  | _ => e
  end.

Section ExceptionText.

(** [str(e)] for the built-in and library exceptions. *)
Variable base_str : exn -> string.

(** [str(e)]: [CustomerChurnException.__str__] (lines 43-52) for the
    pipeline's own exception, the f-string rendering [self.error_message]
    with [str] in turn. *)
Fixpoint exn_str (e : exn) : string :=
  match e with
  | CustomerChurnException m l f =>
      "Error occurred in python script [" ++ str_file_name f
      ++ "] at line number [" ++ str_lineno l
      ++ "] with error message [" ++ exn_str m ++ "]"
  | _ => base_str e
  end.

End ExceptionText.

(** *** The log file ([src/churn_ml/utils/logging.py]) *)

(** The fields of [datetime.now()] that the file name uses. *)
Record datetime : Type := mk_datetime {
  year : nat;
  month : nat;
  day : nat;
  hour : nat;
  minute : nat;
  second : nat
}.

(** The ranges [datetime] guarantees, the year being one of four digits,
    for which every platform prints [%Y] alike. *)
Definition valid_datetime (t : datetime) : bool :=
  ((1000 <=? year t)%nat && (year t <? 10 * 1000)%nat
   && (1 <=? month t)%nat && (month t <=? 12)%nat
   && (1 <=? day t)%nat && (day t <=? 31)%nat
   && (hour t <? 24)%nat && (minute t <? 60)%nat && (second t <? 60)%nat)%bool.

Definition digit (d : nat) : ascii := ascii_of_nat (48 + d).

(** [%m], [%d], [%H], [%M], [%S]: two decimal digits. *)
Definition pad2 (n : nat) : string :=
  String (digit (n / 10 mod 10)) (String (digit (n mod 10)) EmptyString).

(** [%Y]: four decimal digits. *)
Definition pad4 (n : nat) : string :=
  String (digit (n / 1000 mod 10))
    (String (digit (n / 100 mod 10)) (pad2 n)).

(** [now.strftime("%m_%d_%Y_%H_%M_%S")]. *)
Definition strftime_log (now : datetime) : string :=
  pad2 (month now) ++ "_" ++ pad2 (day now) ++ "_" ++ pad4 (year now) ++ "_"
  ++ pad2 (hour now) ++ "_" ++ pad2 (minute now) ++ "_" ++ pad2 (second now).

Definition LOG_FILE_NAME (now : datetime) : string :=
  strftime_log now ++ ".log".

Fixpoint ends_with_sep (s : string) : bool :=
  match s with
  | EmptyString => false
  | String c EmptyString => Ascii.eqb c "/"
  | String _ s' => ends_with_sep s'
  end.

(** [os.path.join(a, b)] on POSIX: an absolute [b] replaces [a]; otherwise
    a separator is put between them unless [a] is empty or ends with one. *)
Definition path_join (a b : string) : string :=
  match b with
  | String "/" _ => b
  | _ =>
      match a with
      | EmptyString => b
      | _ => if ends_with_sep a then a ++ b else a ++ "/" ++ b
      end
  end.

Definition LOGS_DIR (cwd : string) : string := path_join cwd "logs".

Definition LOG_FILE_PATH (cwd : string) (now : datetime) : string :=
  path_join (LOGS_DIR cwd) (LOG_FILE_NAME now).

(** A store that is lost between the index creation and the insertion. *)
Definition store_lost : Mongo :=
  mk_Mongo (fun op => match op with OpInsertMany => true | _ => false end)
           [[("customerID", VStr "Z")]] [] 0 [].

Definition example_now : datetime := mk_datetime 2026 11 3 17 25 9.

(** * Properties *)

(** ** Exceptions carry their source location *)

Lemma try_except_raise {A : Type} (file : string) (h : nat) (body : result A)
    (e : exn) (l : nat) :
  try_except file h body = Raise e l ->
  exists inner ln,
    e = CustomerChurnException inner (Some ln) (Some file) /\ l = h.
Proof.
  destruct body as [a | e0 l0]; simpl; intros H; inversion H; subst.
  exists e0, l0. split; reflexivity.
Qed.

Lemma try_exceptM_raise {A : Type} (file : string) (h : nat) (body : M A)
    (w : Mongo) (e : exn) (l : nat) :
  fst (try_exceptM file h body w) = Raise e l ->
  exists inner ln,
    e = CustomerChurnException inner (Some ln) (Some file) /\ l = h.
Proof.
  unfold try_exceptM. destruct (body w) as [r w']. simpl.
  apply try_except_raise.
Qed.

(** C10.  A [CustomerChurnException] built while no exception is being
    handled has [lineno] and [file_name] both [None]; built while one is
    being handled it takes both from the active traceback.  Hence whatever
    the constructor of the pipeline, a stage, [run_etl] or [main] raises is a
    [CustomerChurnException] whose line and file are present. *)
Theorem exception_location_metadata :
  (forall e,
     exn_lineno (CustomerChurnException_init e None) = None /\
     exn_file_name (CustomerChurnException_init e None) = None) /\
  (forall e tb,
     exn_lineno (CustomerChurnException_init e (Some tb))
       = Some (tb_lineno tb) /\
     exn_file_name (CustomerChurnException_init e (Some tb))
       = Some (co_filename tb)) /\
  (forall getenv certifi_where dataset_download glob_csv read_csv
          str_of_num to_double self df records w e l,
     CustomerChurnETL_init getenv certifi_where = Raise e l \/
     extract_data dataset_download glob_csv read_csv self = Raise e l \/
     transform_data str_of_num to_double df = Raise e l \/
     fst (load_data self records w) = Raise e l \/
     fst (run_etl dataset_download glob_csv read_csv str_of_num to_double
            self w) = Raise e l \/
     fst (main getenv certifi_where dataset_download glob_csv read_csv
            str_of_num to_double w) = Raise e l ->
     exists inner ln file,
       e = CustomerChurnException inner (Some ln) (Some file)).
Proof.
  split; [ | split ].
  - intros e. split; reflexivity.
  - intros e tb. split; reflexivity.
  - intros getenv certifi_where dataset_download glob_csv read_csv
           str_of_num to_double self df records w e l H.
    destruct H as [H | [H | [H | [H | [H | H]]]]].
    + apply try_except_raise in H. destruct H as (inner & ln & He & _).
      exists inner, ln, etl_file. exact He.
    + apply try_except_raise in H. destruct H as (inner & ln & He & _).
      exists inner, ln, etl_file. exact He.
    + apply try_except_raise in H. destruct H as (inner & ln & He & _).
      exists inner, ln, etl_file. exact He.
    + apply try_exceptM_raise in H. destruct H as (inner & ln & He & _).
      exists inner, ln, etl_file. exact He.
    + apply try_exceptM_raise in H. destruct H as (inner & ln & He & _).
      exists inner, ln, etl_file. exact He.
    + apply try_exceptM_raise in H. destruct H as (inner & ln & He & _).
      exists inner, ln, script_file. exact He.
Qed.

Lemma exception_location_metadata_witness :
  exists inner ln file,
    CustomerChurnException
      (ValueError "Cannot transform an empty DataFrame")
      (Some 105%nat) (Some etl_file)
    = CustomerChurnException inner (Some ln) (Some file).
Proof.
  apply (proj2 (proj2 exception_location_metadata)
           full_env example_ca_file example_download one_csv example_read_csv
           whole_number_text decimal_literal example_etl empty_frame
           example_batch store_up _ 135%nat).
  right. right. left. reflexivity.
Defined.

(** ** The loader *)

(** C9.  On an empty batch [load_data] returns 0 and leaves the world as it
    found it: no client is opened, the collection and its indexes are not
    touched, and no call reaches the store. *)
Theorem load_data_empty_batch :
  forall self w,
    load_data self [] w = (Ok 0%nat, w) /\
    calls (snd (load_data self [] w)) = calls w /\
    documents (snd (load_data self [] w)) = documents w /\
    unique_fields (snd (load_data self [] w)) = unique_fields w /\
    open_clients (snd (load_data self [] w)) = open_clients w.
Proof.
  intros self w. repeat split.
Qed.

(** On the path where every store call succeeds the client is closed:
    [close] is the last call and no connection stays open. *)
Lemma load_data_success_closes (self : CustomerChurnETL)
    (records : list record) (w : Mongo) (n : nat) :
  records <> [] ->
  fst (load_data self records w) = Ok n ->
  open_clients (snd (load_data self records w)) = open_clients w /\
  last (calls (snd (load_data self records w))) CallDeleteMany = CallClose.
Proof.
  intros Hne. destruct records as [| d ds]; [ contradiction | ].
  unfold load_data, try_exceptM, bindM, at_lineM, MongoClient, client_getitem,
    db_getitem, delete_many, create_index, insert_many, close, guarded, ret,
    log.
  cbn [raises documents unique_fields open_clients calls].
  destruct (raises w OpMongoClient); [ discriminate | ].
  cbn [raises documents unique_fields open_clients calls at_line].
  destruct (raises w OpDatabase); [ discriminate | ].
  cbn [raises documents unique_fields open_clients calls at_line].
  destruct (raises w OpCollection); [ discriminate | ].
  cbn [raises documents unique_fields open_clients calls at_line].
  destruct (raises w OpDeleteMany); [ discriminate | ].
  cbn [raises documents unique_fields open_clients calls at_line].
  destruct (raises w OpCreateIndex); [ discriminate | ].
  cbn [raises documents unique_fields open_clients calls at_line].
  destruct (raises w OpInsertMany); [ discriminate | ].
  cbn [raises documents unique_fields open_clients calls at_line].
  destruct (bulk_write _ _ _) as [[coll ok] bad].
  destruct bad; [ | discriminate ].
  cbn [raises documents unique_fields open_clients calls at_line
       try_except fst snd pred].
  intros _. split; [ reflexivity | ]. apply last_last.
Qed.

(** On every path where a store call raises after the client was opened,
    the client stays open. *)
Lemma load_data_failure_leaks (self : CustomerChurnETL)
    (records : list record) (w : Mongo) (e : exn) (l : nat) :
  records <> [] ->
  raises w OpMongoClient = false ->
  fst (load_data self records w) = Raise e l ->
  open_clients (snd (load_data self records w)) = S (open_clients w).
Proof.
  intros Hne Hconn. destruct records as [| d ds]; [ contradiction | ].
  unfold load_data, try_exceptM, bindM, at_lineM, MongoClient, client_getitem,
    db_getitem, delete_many, create_index, insert_many, close, guarded, ret,
    log.
  cbn [raises documents unique_fields open_clients calls].
  rewrite Hconn.
  cbn [raises documents unique_fields open_clients calls at_line].
  destruct (raises w OpDatabase); [ reflexivity | ].
  cbn [raises documents unique_fields open_clients calls at_line].
  destruct (raises w OpCollection); [ reflexivity | ].
  cbn [raises documents unique_fields open_clients calls at_line].
  destruct (raises w OpDeleteMany); [ reflexivity | ].
  cbn [raises documents unique_fields open_clients calls at_line].
  destruct (raises w OpCreateIndex); [ reflexivity | ].
  cbn [raises documents unique_fields open_clients calls at_line].
  destruct (raises w OpInsertMany); [ reflexivity | ].
  cbn [raises documents unique_fields open_clients calls at_line].
  destruct (bulk_write _ _ _) as [[coll ok] bad].
  destruct bad; [ discriminate | reflexivity ].
Qed.

(** C2, the failing case.  With a non-empty batch and a store that cannot be
    reached when the first command is sent, [load_data] raises with the
    client it opened still open: the log holds no [close]. *)
Theorem load_data_failure_leaves_client_open :
  fst (load_data example_etl example_batch store_down)
    = Raise (CustomerChurnException
               (LibraryError "pymongo.errors.ServerSelectionTimeoutError")
               (Some 158%nat) (Some etl_file)) 176 /\
  open_clients (snd (load_data example_etl example_batch store_down)) = 1%nat /\
  existsb is_close (calls (snd (load_data example_etl example_batch store_down)))
    = false.
Proof.
  repeat split.
Qed.

(** ** Configuration *)

Lemma append_assoc (a b c : string) : ((a ++ b) ++ c = a ++ (b ++ c))%string.
Proof.
  induction a as [| x a IH]; simpl; [ reflexivity | now rewrite IH ].
Qed.

Lemma append_empty_r (a : string) : (a ++ "" = a)%string.
Proof.
  induction a as [| x a IH]; simpl; [ reflexivity | now rewrite IH ].
Qed.

Lemma join_contains (sep k : string) (parts : list string) :
  In k parts -> exists pre post, join sep parts = (pre ++ k ++ post)%string.
Proof.
  induction parts as [| x rest IH]; intros Hin; [ contradiction | ].
  destruct rest as [| y rest'].
  - destruct Hin as [-> | []]. exists ""%string, ""%string. simpl.
    now rewrite append_empty_r.
  - destruct Hin as [-> | Hin].
    + exists ""%string, (sep ++ join sep (y :: rest'))%string. reflexivity.
    + destruct (IH Hin) as (pre & post & Heq).
      exists (x ++ sep ++ pre)%string, post.
      change (join sep (x :: y :: rest'))
        with (x ++ sep ++ join sep (y :: rest'))%string.
      rewrite Heq. now rewrite !append_assoc.
Qed.

Lemma missing_vars_filter (getenv : string -> option string) (ca : string) :
  missing_vars
    (mk_CustomerChurnETL (getenv "MONGODB_URL") (getenv "DATA_SOURCE")
       (getenv "MONGODB_DATABASE") (getenv "MONGODB_COLLECTION") ca)
  = filter (fun k => falsy (getenv k)) required_names.
Proof.
  unfold missing_vars, required_vars, required_names. simpl.
  destruct (falsy (getenv "MONGODB_URL")), (falsy (getenv "DATA_SOURCE")),
    (falsy (getenv "MONGODB_DATABASE")), (falsy (getenv "MONGODB_COLLECTION"));
    reflexivity.
Qed.

Lemma CustomerChurnETL_init_eq (getenv : string -> option string)
    (ca : string) :
  CustomerChurnETL_init getenv ca
  = match filter (fun k => falsy (getenv k)) required_names with
    | [] =>
        Ok (mk_CustomerChurnETL (getenv "MONGODB_URL") (getenv "DATA_SOURCE")
              (getenv "MONGODB_DATABASE") (getenv "MONGODB_COLLECTION") ca)
    | k :: ks =>
        Raise (CustomerChurnException
                 (ValueError (missing_message (k :: ks)))
                 (Some 47%nat) (Some etl_file)) 52
    end.
Proof.
  unfold CustomerChurnETL_init, _validate_env.
  rewrite missing_vars_filter.
  destruct (filter (fun k => falsy (getenv k)) required_names); reflexivity.
Qed.

(** C6.  Construction fails exactly when one of the four required variables
    is unset or empty, and the message of the error then lists every such
    variable: each of their names occurs in it. *)
Theorem configuration_fails_iff_missing :
  forall (getenv : string -> option string) (certifi_where : string),
    ((exists e l, CustomerChurnETL_init getenv certifi_where = Raise e l) <->
     (exists k, In k required_names /\ falsy (getenv k) = true)) /\
    (forall e l,
       CustomerChurnETL_init getenv certifi_where = Raise e l ->
       exists msg,
         e = CustomerChurnException (ValueError msg)
               (Some 47%nat) (Some etl_file) /\
         msg = missing_message
                 (filter (fun k => falsy (getenv k)) required_names) /\
         forall k, In k required_names -> falsy (getenv k) = true ->
           exists pre post, msg = (pre ++ k ++ post)%string).
Proof.
  intros getenv ca. rewrite CustomerChurnETL_init_eq.
  destruct (filter (fun k => falsy (getenv k)) required_names)
    as [| k0 ks] eqn:Hf.
  - split.
    + split.
      * intros (e & l & H). discriminate H.
      * intros (k & Hin & Hk).
        assert (Hk' : In k (filter (fun k => falsy (getenv k)) required_names))
          by (apply filter_In; split; assumption).
        rewrite Hf in Hk'. contradiction.
    + intros e l H. discriminate H.
  - split.
    + split.
      * intros _. exists k0.
        assert (Hk' : In k0 (filter (fun k => falsy (getenv k)) required_names))
          by (rewrite Hf; left; reflexivity).
        apply filter_In in Hk'. exact Hk'.
      * intros _. eexists. eexists. reflexivity.
    + intros e l H. inversion H; subst. eexists. split; [ reflexivity | ].
      split; [ reflexivity | ].
      intros k Hin Hk.
      assert (Hk' : In k (k0 :: ks))
        by (rewrite <- Hf; apply filter_In; split; assumption).
      destruct (join_contains ", " k (k0 :: ks) Hk') as (pre & post & Heq).
      exists ("Missing required environment variables: " ++ pre)%string, post.
      unfold missing_message. rewrite Heq. now rewrite append_assoc.
Qed.

Lemma configuration_fails_iff_missing_witness :
  exists msg,
    CustomerChurnException
      (ValueError "Missing required environment variables: MONGODB_DATABASE, MONGODB_COLLECTION")
      (Some 47%nat) (Some etl_file)
    = CustomerChurnException (ValueError msg) (Some 47%nat) (Some etl_file) /\
    msg = missing_message
            (filter (fun k => falsy (partial_env k)) required_names) /\
    forall k, In k required_names -> falsy (partial_env k) = true ->
      exists pre post, msg = (pre ++ k ++ post)%string.
Proof.
  apply (proj2 (configuration_fails_iff_missing partial_env example_ca_file)
           _ 52%nat).
  reflexivity.
Defined.

(** ** Extraction *)

Lemma empty_false_iff_rows (df : DataFrame) :
  columns df <> [] -> (empty df = false <-> rows df <> []).
Proof.
  unfold empty. intros Hc.
  destruct (columns df) as [| c cs]; [ contradiction | ].
  destruct (rows df); split; intros H; congruence.
Qed.

Lemma empty_of_no_rows (df : DataFrame) : rows df = [] -> empty df = true.
Proof.
  unfold empty. intros ->. destruct (columns df); reflexivity.
Qed.

(** C7.  Once the snapshot directory is there, extraction raises (a
    [CustomerChurnException] around the [ValueError] of line 82) when the
    directory holds no CSV file or more than one, raises (around the
    [ValueError] of line 87) when the one file parses to a table without
    rows, and returns a table exactly when the directory holds one CSV file
    that parses to that table and the table is not empty; for a parsed
    table, which has a header, not empty means at least one row. *)
Theorem extract_data_outcomes :
  forall (dataset_download : option string -> result string)
         (glob_csv : string -> list string)
         (read_csv : string -> result DataFrame)
         (self : CustomerChurnETL) (dir : string),
    dataset_download (data_source self) = Ok dir ->
    (List.length (glob_csv dir) <> 1%nat ->
       extract_data dataset_download glob_csv read_csv self
       = Raise (CustomerChurnException
                  (ValueError
                     "Expected exactly one CSV file in dataset directory")
                  (Some 82%nat) (Some etl_file)) 94) /\
    (forall f df,
       glob_csv dir = [f] -> read_csv f = Ok df -> rows df = [] ->
       extract_data dataset_download glob_csv read_csv self
       = Raise (CustomerChurnException
                  (ValueError "Extracted dataset is empty")
                  (Some 87%nat) (Some etl_file)) 94) /\
    (forall df,
       extract_data dataset_download glob_csv read_csv self = Ok df <->
       exists f, glob_csv dir = [f] /\ read_csv f = Ok df /\ empty df = false) /\
    (forall df,
       columns df <> [] ->
       (extract_data dataset_download glob_csv read_csv self = Ok df <->
        exists f, glob_csv dir = [f] /\ read_csv f = Ok df /\ rows df <> [])).
Proof.
  intros dl glob rc self dir Hdl.
  assert (Hmain : forall df,
    extract_data dl glob rc self = Ok df <->
    exists f, glob dir = [f] /\ rc f = Ok df /\ empty df = false).
  { intros df. unfold extract_data. rewrite Hdl. simpl.
    destruct (glob dir) as [| f [| g fs]] eqn:Hg; simpl.
    - split; [ discriminate | intros (f & H & _); discriminate H ].
    - destruct (rc f) as [df' | e l] eqn:Hrc; simpl.
      + destruct (empty df') eqn:He; simpl.
        * split; [ discriminate | ].
          intros (f' & Hf & Hrc' & He'). inversion Hf; subst f'.
          rewrite Hrc in Hrc'. inversion Hrc'; subst. congruence.
        * split.
          -- intros H. inversion H; subst. exists f. auto.
          -- intros (f' & Hf & Hrc' & He'). inversion Hf; subst f'.
             rewrite Hrc in Hrc'. inversion Hrc'; subst. reflexivity.
      + split; [ discriminate | ].
        intros (f' & Hf & Hrc' & _). inversion Hf; subst f'.
        rewrite Hrc in Hrc'. discriminate Hrc'.
    - split; [ discriminate | intros (f' & H & _); discriminate H ]. }
  split; [ | split; [ | split ] ].
  - intros Hlen. unfold extract_data. rewrite Hdl. simpl.
    destruct (glob dir) as [| f [| g fs]]; simpl in *;
      [ reflexivity | contradiction Hlen; reflexivity | reflexivity ].
  - intros f df Hg Hrc Hrows. unfold extract_data. rewrite Hdl. simpl.
    rewrite Hg. simpl. rewrite Hrc. simpl.
    rewrite (empty_of_no_rows df Hrows). reflexivity.
  - exact Hmain.
  - intros df Hc. rewrite Hmain. split.
    + intros (f & Hg & Hrc & He). exists f. repeat split; try assumption.
      apply (empty_false_iff_rows df Hc). exact He.
    + intros (f & Hg & Hrc & Hr). exists f. repeat split; try assumption.
      apply (empty_false_iff_rows df Hc). exact Hr.
Qed.

Lemma extract_data_outcomes_witness :
  extract_data example_download one_csv example_read_csv example_etl
    = Ok example_frame /\
  extract_data example_download no_csv example_read_csv example_etl
    = Raise (CustomerChurnException
               (ValueError "Expected exactly one CSV file in dataset directory")
               (Some 82%nat) (Some etl_file)) 94 /\
  extract_data example_download one_csv empty_read_csv example_etl
    = Raise (CustomerChurnException
               (ValueError "Extracted dataset is empty")
               (Some 87%nat) (Some etl_file)) 94.
Proof.
  split; [ | split ].
  - apply (proj2 (proj2 (proj2 (proj2
             (extract_data_outcomes example_download one_csv example_read_csv
                example_etl "/cache/telco" eq_refl))) example_frame
             ltac:(discriminate))).
    exists "/cache/telco/churn.csv"%string.
    repeat split; discriminate.
  - apply (proj1 (extract_data_outcomes example_download no_csv
                    example_read_csv example_etl "/cache/telco" eq_refl)).
    simpl. discriminate.
  - apply (proj1 (proj2 (extract_data_outcomes example_download one_csv
                    empty_read_csv example_etl "/cache/telco" eq_refl))
             "/cache/telco/churn.csv"%string empty_frame);
      reflexivity.
Defined.

(** ** Transformation *)

Lemma zip_with_map {A B C : Type} (g : B -> A -> C) (f : A -> B) (l : list A) :
  zip_with g (map f l) l = map (fun r => g (f r) r) l.
Proof.
  induction l as [| a l IH]; simpl; [ reflexivity | now rewrite IH ].
Qed.

Lemma to_numeric_coerce (to_double : string -> option number) (s : Series) :
  to_numeric to_double errors_coerce s = Ok (map (numeric_or_nan to_double) s).
Proof.
  induction s as [| c s IH]; simpl; [ reflexivity | ].
  rewrite IH.
  destruct c as [n | t |]; simpl; try reflexivity.
  destruct (to_double t); reflexivity.
Qed.

Lemma setitem_map (df : DataFrame) (name : string) (i : nat)
    (f : cell -> cell) :
  index_of name (columns df) = Some i ->
  setitem df name (map f (map (cell_at i) (rows df)))
  = mk_DataFrame (columns df) (map (update_at i f) (rows df)).
Proof.
  intros Hi. unfold setitem. rewrite Hi. f_equal.
  rewrite map_map.
  apply (zip_with_map (fun v r => set_nth i v r) (fun r => f (cell_at i r))).
Qed.

(** What [transform_data] computes, case by case. *)
Lemma transform_data_eq (str_of_num : number -> string)
    (to_double : string -> option number) (df : DataFrame) :
  transform_data str_of_num to_double df
  = if empty df then
      Raise (CustomerChurnException
               (ValueError "Cannot transform an empty DataFrame")
               (Some 105%nat) (Some etl_file)) 135
    else
      match index_of "customerID" (columns df),
            index_of "SeniorCitizen" (columns df),
            index_of "TotalCharges" (columns df) with
      | None, _, _ =>
          Raise (CustomerChurnException (KeyError "customerID")
                   (Some 108%nat) (Some etl_file)) 135
      | Some _, None, _ =>
          Raise (CustomerChurnException (KeyError "SeniorCitizen")
                   (Some 111%nat) (Some etl_file)) 135
      | Some _, Some _, None =>
          Raise (CustomerChurnException (KeyError "TotalCharges")
                   (Some 115%nat) (Some etl_file)) 135
      | Some ci, Some si, Some ti =>
          Ok (map (fun r => combine (columns df)
                              (transform_row str_of_num to_double si ti r))
                  (keep_first (cell_at ci) [] (rows df)))
      end.
Proof.
  unfold transform_data.
  destruct (empty df); [ reflexivity | ].
  cbn [bind]. unfold drop_duplicates.
  destruct (index_of "customerID" (columns df)) as [ci |]; [ | reflexivity ].
  cbn [at_line bind].
  set (df1 := mk_DataFrame (columns df) (keep_first (cell_at ci) [] (rows df))).
  unfold getitem at 1. change (columns df1) with (columns df).
  destruct (index_of "SeniorCitizen" (columns df)) as [si |] eqn:Hs;
    [ | reflexivity ].
  cbn [at_line bind]. unfold Series_map.
  rewrite (setitem_map df1 "SeniorCitizen" si _ Hs).
  set (df2 := mk_DataFrame (columns df1) _).
  unfold getitem at 1. change (columns df2) with (columns df).
  destruct (index_of "TotalCharges" (columns df)) as [ti |] eqn:Ht;
    [ | reflexivity ].
  cbn [at_line bind].
  rewrite (setitem_map df2 "TotalCharges" ti _ Ht).
  set (df3 := mk_DataFrame (columns df2) _).
  unfold getitem at 1. change (columns df3) with (columns df).
  rewrite Ht. cbn [at_line bind].
  rewrite to_numeric_coerce. cbn [at_line bind].
  rewrite (setitem_map df3 "TotalCharges" ti _ Ht).
  unfold to_dict_records, try_except. cbn [columns rows].
  subst df3 df2 df1. cbn [columns rows].
  rewrite !map_map. reflexivity.
Qed.

(** *** Equality of cells is an equivalence *)

Lemma number_eqb_refl (a : number) : number_eqb a a = true.
Proof.
  destruct a as [q | s]; simpl;
    [ apply Qeq_bool_refl | apply Bool.eqb_reflx ].
Qed.

Lemma number_eqb_sym (a b : number) : number_eqb a b = number_eqb b a.
Proof.
  destruct a as [p | s], b as [q | t]; simpl; try reflexivity.
  - apply Qeq_bool_comm.
  - destruct s, t; reflexivity.
Qed.

Lemma number_eqb_trans (a b c : number) :
  number_eqb a b = true -> number_eqb b c = true -> number_eqb a c = true.
Proof.
  destruct a as [p | s], b as [q | t], c as [r | u]; simpl;
    try discriminate.
  - apply Qeq_bool_trans.
  - destruct s, t, u; simpl; congruence.
Qed.

Lemma cell_eqb_refl (a : cell) : cell_eqb a a = true.
Proof.
  destruct a as [n | s |]; simpl;
    [ apply number_eqb_refl | apply String.eqb_refl | reflexivity ].
Qed.

Lemma cell_eqb_sym (a b : cell) : cell_eqb a b = cell_eqb b a.
Proof.
  destruct a as [m | s |], b as [n | t |]; simpl; try reflexivity.
  - apply number_eqb_sym.
  - apply String.eqb_sym.
Qed.

Lemma cell_eqb_trans (a b c : cell) :
  cell_eqb a b = true -> cell_eqb b c = true -> cell_eqb a c = true.
Proof.
  destruct a as [m | s |], b as [n | t |], c as [o | u |]; simpl;
    try discriminate; try reflexivity.
  - apply number_eqb_trans.
  - intros H1 H2. apply String.eqb_eq in H1, H2. subst.
    apply String.eqb_refl.
Qed.

(** *** The scan that keeps first occurrences *)

Section KeepFirst.

Variable key : list cell -> cell.

Lemma keep_first_subsequence (rs : list (list cell)) :
  forall seen, subsequence (keep_first key seen rs) rs.
Proof.
  induction rs as [| r rs IH]; intros seen; simpl.
  - constructor.
  - destruct (existsb (cell_eqb (key r)) seen).
    + apply subsequence_skip, IH.
    + apply subsequence_keep, IH.
Qed.

Lemma keep_first_In (rs : list (list cell)) :
  forall seen r, In r (keep_first key seen rs) -> In r rs.
Proof.
  induction rs as [| r0 rs IH]; intros seen r; simpl; [ tauto | ].
  destruct (existsb (cell_eqb (key r0)) seen); simpl.
  - intros H. right. eapply IH, H.
  - intros [H | H]; [ left; exact H | right; eapply IH, H ].
Qed.

Lemma keep_first_not_seen (rs : list (list cell)) :
  forall seen r,
    In r (keep_first key seen rs) ->
    existsb (cell_eqb (key r)) seen = false.
Proof.
  induction rs as [| r0 rs IH]; intros seen r; simpl; [ tauto | ].
  destruct (existsb (cell_eqb (key r0)) seen) eqn:Hseen; simpl.
  - apply IH.
  - intros [<- | H]; [ exact Hseen | ].
    apply IH in H. simpl in H. apply Bool.orb_false_iff in H. apply H.
Qed.

Lemma keep_first_distinct (rs : list (list cell)) :
  forall seen, distinct_keys (map key (keep_first key seen rs)) = true.
Proof.
  induction rs as [| r rs IH]; intros seen; simpl; [ reflexivity | ].
  destruct (existsb (cell_eqb (key r)) seen) eqn:Hseen; [ apply IH | ].
  simpl. rewrite IH, Bool.andb_true_r. apply Bool.negb_true_iff.
  destruct (existsb (cell_eqb (key r))
              (map key (keep_first key (key r :: seen) rs))) eqn:Hex;
    [ | reflexivity ].
  apply existsb_exists in Hex. destruct Hex as (k & Hin & Hk).
  apply in_map_iff in Hin. destruct Hin as (r' & <- & Hin).
  apply keep_first_not_seen in Hin. simpl in Hin.
  apply Bool.orb_false_iff in Hin. destruct Hin as [Hin _].
  rewrite cell_eqb_sym in Hin. congruence.
Qed.

Lemma keep_first_first_with (k : cell) (rs : list (list cell)) :
  forall seen,
    existsb (fun s => cell_eqb s k) seen = false ->
    first_with key k (keep_first key seen rs) = first_with key k rs.
Proof.
  unfold first_with.
  induction rs as [| r rs IH]; intros seen Hk; simpl; [ reflexivity | ].
  destruct (existsb (cell_eqb (key r)) seen) eqn:Hseen.
  - destruct (cell_eqb (key r) k) eqn:Hrk.
    + apply existsb_exists in Hseen. destruct Hseen as (s & Hin & Hs).
      assert (Hsk : cell_eqb s k = true).
      { apply cell_eqb_trans with (key r); [ | exact Hrk ].
        rewrite cell_eqb_sym. exact Hs. }
      assert (Hex : existsb (fun s => cell_eqb s k) seen = true)
        by (apply existsb_exists; exists s; split; assumption).
      congruence.
    + apply IH, Hk.
  - simpl. destruct (cell_eqb (key r) k) eqn:Hrk; [ reflexivity | ].
    apply IH. simpl. rewrite Hrk. exact Hk.
Qed.

End KeepFirst.

(** *** Columns, rows and records *)

Lemma index_of_lt (name : string) (cols : list string) :
  forall i, index_of name cols = Some i -> (i < List.length cols)%nat.
Proof.
  induction cols as [| c cs IH]; intros i; simpl; [ discriminate | ].
  destruct (String.eqb c name).
  - intros H. inversion H. lia.
  - destruct (index_of name cs) as [j |]; simpl; [ | discriminate ].
    intros H. inversion H. specialize (IH j eq_refl). lia.
Qed.

Lemma index_of_inj (a b : string) (cols : list string) :
  forall i, index_of a cols = Some i -> index_of b cols = Some i -> a = b.
Proof.
  induction cols as [| c cs IH]; intros i; simpl; [ discriminate | ].
  destruct (String.eqb c a) eqn:Ha, (String.eqb c b) eqn:Hb.
  - intros _ _. apply String.eqb_eq in Ha, Hb. congruence.
  - destruct (index_of b cs); simpl; intros H1 H2; congruence.
  - destruct (index_of a cs); simpl; intros H1 H2; congruence.
  - destruct (index_of a cs) as [j |], (index_of b cs) as [j' |]; simpl;
      try discriminate.
    intros H1 H2. inversion H1; inversion H2; subst.
    apply (IH j'); [ congruence | reflexivity ].
Qed.

Lemma lookup_combine (name : string) (cols : list string) :
  forall i r,
    index_of name cols = Some i -> (i < List.length r)%nat ->
    lookup name (combine cols r) = Some (cell_at i r).
Proof.
  induction cols as [| c cs IH]; intros i r; simpl; [ discriminate | ].
  destruct (String.eqb c name) eqn:Hc.
  - intros H Hlt. inversion H; subst.
    destruct r as [| v r]; simpl in *; [ lia | ].
    rewrite Hc. reflexivity.
  - destruct (index_of name cs) as [j |]; simpl; [ | discriminate ].
    intros H Hlt. inversion H; subst.
    destruct r as [| v r]; simpl in *; [ lia | ].
    rewrite Hc. change (cell_at (S j) (v :: r)) with (cell_at j r).
    apply IH; [ reflexivity | lia ].
Qed.

Lemma set_nth_length (i : nat) (v : cell) (r : list cell) :
  List.length (set_nth i v r) = List.length r.
Proof.
  revert i. induction r as [| x r IH]; intros i; simpl; [ reflexivity | ].
  destruct i; simpl; [ reflexivity | now rewrite IH ].
Qed.

Lemma cell_at_set_nth_same (i : nat) (v : cell) (r : list cell) :
  (i < List.length r)%nat -> cell_at i (set_nth i v r) = v.
Proof.
  unfold cell_at. revert i.
  induction r as [| x r IH]; intros i Hlt; simpl in *; [ lia | ].
  destruct i; simpl; [ reflexivity | apply IH; lia ].
Qed.

Lemma cell_at_set_nth_other (i j : nat) (v : cell) (r : list cell) :
  i <> j -> cell_at j (set_nth i v r) = cell_at j r.
Proof.
  unfold cell_at. revert i j.
  induction r as [| x r IH]; intros i j Hne; simpl; [ reflexivity | ].
  destruct i, j; simpl; try reflexivity; try congruence.
  apply IH. congruence.
Qed.

Lemma update_at_length (i : nat) (f : cell -> cell) (r : list cell) :
  List.length (update_at i f r) = List.length r.
Proof. apply set_nth_length. Qed.

Lemma cell_at_update_at_same (i : nat) (f : cell -> cell) (r : list cell) :
  (i < List.length r)%nat -> cell_at i (update_at i f r) = f (cell_at i r).
Proof. apply cell_at_set_nth_same. Qed.

Lemma cell_at_update_at_other (i j : nat) (f : cell -> cell) (r : list cell) :
  i <> j -> cell_at j (update_at i f r) = cell_at j r.
Proof. apply cell_at_set_nth_other. Qed.

Lemma well_formed_row (df : DataFrame) (r : list cell) :
  well_formed df = true -> In r (rows df) ->
  List.length r = List.length (columns df).
Proof.
  unfold well_formed. intros H Hin.
  apply Bool.andb_true_iff in H. destruct H as [_ H].
  rewrite forallb_forall in H. apply Nat.eqb_eq, H, Hin.
Qed.

Section Fields.

Variable str_of_num : number -> string.
Variable to_double : string -> option number.

Lemma coerce_total_charges_eq (c : cell) :
  coerce_total_charges str_of_num to_double c
  = Ok (numeric_or_nan to_double (clean_total_charges str_of_num c)).
Proof.
  unfold coerce_total_charges, to_numeric_cell, numeric_or_nan.
  destruct (clean_total_charges str_of_num c) as [n | s |]; try reflexivity.
  destruct (to_double s); reflexivity.
Qed.

Lemma clean_then_numeric (c : cell) :
  numeric_or_nan to_double (clean_total_charges str_of_num c)
  = spec_coerce str_of_num to_double c.
Proof.
  unfold clean_total_charges, spec_coerce, replace.
  destruct c as [n | s |]; cbn [astype_str str_strip spec_text cell_eqb];
    destruct (strip _) as [| a t]; reflexivity.
Qed.

(** The three fields the pipeline works on, in the record made from one
    row. *)
Lemma transform_row_fields (cols : list string) (ci si ti : nat)
    (r : list cell) :
  index_of "customerID" cols = Some ci ->
  index_of "SeniorCitizen" cols = Some si ->
  index_of "TotalCharges" cols = Some ti ->
  List.length r = List.length cols ->
  let rec := combine cols (transform_row str_of_num to_double si ti r) in
  lookup "customerID" rec = Some (cell_at ci r) /\
  lookup "SeniorCitizen" rec
    = Some (map_dict senior_citizen_map (cell_at si r)) /\
  lookup "TotalCharges" rec
    = Some (spec_coerce str_of_num to_double (cell_at ti r)).
Proof.
  intros Hc Hs Ht Hlen rec.
  assert (Hci := index_of_lt _ _ _ Hc).
  assert (Hsi := index_of_lt _ _ _ Hs).
  assert (Hti := index_of_lt _ _ _ Ht).
  assert (Hcs : ci <> si).
  { intros ->. pose proof (index_of_inj _ _ _ _ Hc Hs). discriminate. }
  assert (Hct : ci <> ti).
  { intros ->. pose proof (index_of_inj _ _ _ _ Hc Ht). discriminate. }
  assert (Hst : si <> ti).
  { intros ->. pose proof (index_of_inj _ _ _ _ Hs Ht). discriminate. }
  assert (Hl : List.length (transform_row str_of_num to_double si ti r)
               = List.length cols).
  { unfold transform_row. rewrite !update_at_length. exact Hlen. }
  subst rec. repeat split.
  - rewrite (lookup_combine _ _ ci) by (try assumption; lia).
    unfold transform_row.
    rewrite !cell_at_update_at_other by congruence. reflexivity.
  - rewrite (lookup_combine _ _ si) by (try assumption; lia).
    unfold transform_row.
    rewrite !(cell_at_update_at_other ti si) by congruence.
    rewrite cell_at_update_at_same by lia. reflexivity.
  - rewrite (lookup_combine _ _ ti) by (try assumption; lia).
    unfold transform_row.
    rewrite cell_at_update_at_same by (rewrite !update_at_length; lia).
    rewrite cell_at_update_at_same by (rewrite !update_at_length; lia).
    rewrite cell_at_update_at_other by congruence.
    rewrite clean_then_numeric. reflexivity.
Qed.

(** A successful transformation, unfolded. *)
Lemma transform_data_ok (df : DataFrame) (recs : list record) :
  transform_data str_of_num to_double df = Ok recs ->
  exists ci si ti,
    index_of "customerID" (columns df) = Some ci /\
    index_of "SeniorCitizen" (columns df) = Some si /\
    index_of "TotalCharges" (columns df) = Some ti /\
    empty df = false /\
    recs = map (fun r => combine (columns df)
                           (transform_row str_of_num to_double si ti r))
               (keep_first (cell_at ci) [] (rows df)).
Proof.
  rewrite transform_data_eq.
  destruct (empty df); [ discriminate | ].
  destruct (index_of "customerID" (columns df)) as [ci |];
    [ | discriminate ].
  destruct (index_of "SeniorCitizen" (columns df)) as [si |];
    [ | discriminate ].
  destruct (index_of "TotalCharges" (columns df)) as [ti |];
    [ | discriminate ].
  intros H. inversion H. exists ci, si, ti. repeat split.
Qed.

End Fields.

(** C8.  A table without rows makes [transform_data] raise (a
    [CustomerChurnException] around the [ValueError] of line 105) and no
    record is produced; a call that returns has produced the whole batch, one
    record for every row that deduplication keeps, and that batch is not
    empty. *)
Theorem transform_data_empty_input :
  forall (str_of_num : number -> string) (to_double : string -> option number)
         (df : DataFrame),
    (rows df = [] ->
     transform_data str_of_num to_double df
     = Raise (CustomerChurnException
                (ValueError "Cannot transform an empty DataFrame")
                (Some 105%nat) (Some etl_file)) 135) /\
    (forall recs,
       transform_data str_of_num to_double df = Ok recs ->
       rows df <> [] /\ recs <> [] /\
       exists ci,
         index_of "customerID" (columns df) = Some ci /\
         List.length recs
         = List.length (keep_first (cell_at ci) [] (rows df))).
Proof.
  intros son td df. split.
  - intros Hrows. rewrite transform_data_eq.
    rewrite (empty_of_no_rows df Hrows). reflexivity.
  - intros recs H.
    destruct (transform_data_ok son td df recs H)
      as (ci & si & ti & Hc & _ & _ & He & ->).
    assert (Hrows : rows df <> []).
    { intros Hr. rewrite (empty_of_no_rows df Hr) in He. discriminate. }
    split; [ exact Hrows | ]. split.
    + destruct (rows df) as [| r rs]; [ contradiction | ]. simpl. discriminate.
    + exists ci. split; [ exact Hc | ]. apply length_map.
Qed.

Lemma transform_data_empty_input_witness :
  transform_data whole_number_text decimal_literal empty_frame
  = Raise (CustomerChurnException
             (ValueError "Cannot transform an empty DataFrame")
             (Some 105%nat) (Some etl_file)) 135 /\
  (rows example_frame <> [] /\ example_batch <> [] /\
   exists ci,
     index_of "customerID" (columns example_frame) = Some ci /\
     List.length example_batch
     = List.length (keep_first (cell_at ci) [] (rows example_frame))).
Proof.
  split.
  - apply (proj1 (transform_data_empty_input whole_number_text decimal_literal
                    empty_frame)).
    reflexivity.
  - apply (proj2 (transform_data_empty_input whole_number_text decimal_literal
                    example_frame)).
    reflexivity.
Defined.

(** C4.  Deduplication keeps, for every "customerID" value of the table,
    the first row that carries it and nothing else: the kept rows are a
    subsequence of the table (original order), their keys are pairwise
    distinct, the first row with a given key is the same among the kept rows
    as in the table, every row of the table has its key represented, the
    batch is made of the kept rows, one record each, and a record carries
    the "customerID" of its row. *)
Theorem deduplication_keeps_first_occurrence :
  forall (str_of_num : number -> string) (to_double : string -> option number)
         (df : DataFrame) (recs : list record),
    transform_data str_of_num to_double df = Ok recs ->
    exists ci si ti,
      index_of "customerID" (columns df) = Some ci /\
      let kept := keep_first (cell_at ci) [] (rows df) in
      subsequence kept (rows df) /\
      distinct_keys (map (cell_at ci) kept) = true /\
      (forall k,
         first_with (cell_at ci) k kept = first_with (cell_at ci) k (rows df)) /\
      (forall r, In r (rows df) ->
         exists r', In r' kept /\ cell_eqb (cell_at ci r') (cell_at ci r) = true) /\
      recs = map (fun r => combine (columns df)
                             (transform_row str_of_num to_double si ti r))
                 kept /\
      (well_formed df = true ->
       forall r, In r kept ->
         lookup "customerID"
           (combine (columns df) (transform_row str_of_num to_double si ti r))
         = Some (cell_at ci r)).
Proof.
  intros son td df recs H.
  destruct (transform_data_ok son td df recs H)
    as (ci & si & ti & Hc & Hs & Ht & _ & Hrecs).
  exists ci, si, ti. split; [ exact Hc | ]. cbv zeta.
  assert (Hfirst : forall k,
    first_with (cell_at ci) k (keep_first (cell_at ci) [] (rows df))
    = first_with (cell_at ci) k (rows df))
    by (intros k; apply keep_first_first_with; reflexivity).
  repeat split.
  - apply keep_first_subsequence.
  - apply keep_first_distinct.
  - exact Hfirst.
  - intros r Hin.
    destruct (first_with (cell_at ci) (cell_at ci r) (rows df)) as [r' |] eqn:Hf.
    + rewrite <- Hfirst in Hf. unfold first_with in Hf.
      apply find_some in Hf. exists r'. exact Hf.
    + unfold first_with in Hf.
      pose proof (find_none _ _ Hf r Hin) as Hn. simpl in Hn.
      rewrite cell_eqb_refl in Hn. discriminate.
  - exact Hrecs.
  - intros Hwf r Hin.
    apply (transform_row_fields son td (columns df) ci si ti r Hc Hs Ht).
    apply well_formed_row; [ exact Hwf | ].
    eapply keep_first_In, Hin.
Qed.

Lemma deduplication_keeps_first_occurrence_witness :
  exists ci si ti,
    index_of "customerID" (columns example_frame) = Some ci /\
    let kept := keep_first (cell_at ci) [] (rows example_frame) in
    subsequence kept (rows example_frame) /\
    distinct_keys (map (cell_at ci) kept) = true /\
    (forall k,
       first_with (cell_at ci) k kept
       = first_with (cell_at ci) k (rows example_frame)) /\
    (forall r, In r (rows example_frame) ->
       exists r', In r' kept /\ cell_eqb (cell_at ci r') (cell_at ci r) = true) /\
    example_batch
    = map (fun r => combine (columns example_frame)
                      (transform_row whole_number_text decimal_literal si ti r))
          kept /\
    (well_formed example_frame = true ->
     forall r, In r kept ->
       lookup "customerID"
         (combine (columns example_frame)
            (transform_row whole_number_text decimal_literal si ti r))
       = Some (cell_at ci r)).
Proof.
  apply (deduplication_keeps_first_occurrence whole_number_text decimal_literal
           example_frame example_batch).
  reflexivity.
Defined.

(** *** The "SeniorCitizen" column *)

Lemma map_dict_senior_citizen (c : cell) :
  map_dict senior_citizen_map c = spec_senior_citizen c.
Proof.
  unfold map_dict, spec_senior_citizen, senior_citizen_map.
  cbn [find fst snd].
  rewrite (cell_eqb_sym (VNum (Finite (1 # 1))) c).
  rewrite (cell_eqb_sym (VNum (Finite (0 # 1))) c).
  destruct (cell_eqb c (VNum (Finite (1 # 1)))); [ reflexivity | ].
  destruct (cell_eqb c (VNum (Finite (0 # 1)))); reflexivity.
Qed.

(** C1 as stated fails: the raw value 2 does not pass through, the record
    holds the missing value in its place. *)
Lemma senior_citizen_two_is_not_passed_through :
  exists rec,
    transform_data whole_number_text decimal_literal odd_frame = Ok [rec] /\
    map (cell_at 1) (rows odd_frame) = [VNum (Finite (2 # 1))] /\
    lookup "SeniorCitizen" rec = Some VNaN /\
    lookup "SeniorCitizen" rec <> Some (VNum (Finite (2 # 1))).
Proof.
  eexists. split; [ reflexivity | ].
  split; [ reflexivity | ]. split; [ reflexivity | ].
  simpl. discriminate.
Qed.

(** C1, amended.  The "SeniorCitizen" column is mapped value by value: 1
    gives "Yes", 0 gives "No", and every other value gives the missing
    value; in the batch, the field of a record is that image of the raw
    value of its row. *)
Theorem senior_citizen_normalization :
  map_dict senior_citizen_map (VNum (Finite (1 # 1))) = VStr "Yes" /\
  map_dict senior_citizen_map (VNum (Finite (0 # 1))) = VStr "No" /\
  (forall c,
     cell_eqb c (VNum (Finite (1 # 1))) = false ->
     cell_eqb c (VNum (Finite (0 # 1))) = false ->
     map_dict senior_citizen_map c = VNaN) /\
  (forall c, map_dict senior_citizen_map c = spec_senior_citizen c) /\
  (forall (str_of_num : number -> string)
          (to_double : string -> option number)
          (df : DataFrame) (recs : list record),
     well_formed df = true ->
     transform_data str_of_num to_double df = Ok recs ->
     exists ci si ti,
       index_of "customerID" (columns df) = Some ci /\
       index_of "SeniorCitizen" (columns df) = Some si /\
       recs = map (fun r => combine (columns df)
                              (transform_row str_of_num to_double si ti r))
                  (keep_first (cell_at ci) [] (rows df)) /\
       forall r, In r (keep_first (cell_at ci) [] (rows df)) ->
         lookup "SeniorCitizen"
           (combine (columns df) (transform_row str_of_num to_double si ti r))
         = Some (spec_senior_citizen (cell_at si r))).
Proof.
  split; [ reflexivity | ]. split; [ reflexivity | ].
  split; [ | split ].
  - intros c H1 H0. rewrite map_dict_senior_citizen.
    unfold spec_senior_citizen. rewrite H1, H0. reflexivity.
  - apply map_dict_senior_citizen.
  - intros son td df recs Hwf H.
    destruct (transform_data_ok son td df recs H)
      as (ci & si & ti & Hc & Hs & Ht & _ & Hrecs).
    exists ci, si, ti. repeat split; try assumption.
    intros r Hin. rewrite <- map_dict_senior_citizen.
    apply (transform_row_fields son td (columns df) ci si ti r Hc Hs Ht).
    apply well_formed_row; [ exact Hwf | ].
    eapply keep_first_In, Hin.
Qed.

Lemma senior_citizen_normalization_witness :
  map_dict senior_citizen_map (VStr "1") = VNaN /\
  exists ci si ti,
    index_of "customerID" (columns odd_frame) = Some ci /\
    index_of "SeniorCitizen" (columns odd_frame) = Some si /\
    [ [("customerID", VStr "C"); ("SeniorCitizen", VNaN);
       ("TotalCharges", VNum (Finite (2985 # 100)))] ]
    = map (fun r => combine (columns odd_frame)
                      (transform_row whole_number_text decimal_literal si ti r))
          (keep_first (cell_at ci) [] (rows odd_frame)) /\
    forall r, In r (keep_first (cell_at ci) [] (rows odd_frame)) ->
      lookup "SeniorCitizen"
        (combine (columns odd_frame)
           (transform_row whole_number_text decimal_literal si ti r))
      = Some (spec_senior_citizen (cell_at si r)).
Proof.
  split.
  - apply (proj1 (proj2 (proj2 senior_citizen_normalization)) (VStr "1"));
      reflexivity.
  - apply (proj2 (proj2 (proj2 (proj2 senior_citizen_normalization)))
             whole_number_text decimal_literal odd_frame);
      reflexivity.
Defined.

(** *** The invariant of the batch *)

(** C3 as stated fails: a table on which [transform_data] succeeds yields a
    record whose "SeniorCitizen" is neither "Yes" nor "No". *)
Lemma batch_senior_citizen_outside_yes_no :
  exists rec v,
    well_formed odd_frame = true /\
    transform_data whole_number_text decimal_literal odd_frame = Ok [rec] /\
    lookup "SeniorCitizen" rec = Some v /\
    v <> VStr "Yes" /\ v <> VStr "No".
Proof.
  eexists. exists VNaN. split; [ reflexivity | ].
  split; [ reflexivity | ]. split; [ reflexivity | ].
  split; discriminate.
Qed.

(** C3, amended.  When [transform_data] succeeds on a well-formed table,
    every record of the batch has its three fields, "SeniorCitizen" is
    "Yes", "No" or missing, "TotalCharges" is a number or missing and never
    a string, and the "customerID" values of the batch are pairwise
    distinct. *)
Theorem batch_invariant :
  forall (str_of_num : number -> string) (to_double : string -> option number)
         (df : DataFrame) (recs : list record),
    well_formed df = true ->
    transform_data str_of_num to_double df = Ok recs ->
    (forall rec, In rec recs ->
       exists id sc tc,
         lookup "customerID" rec = Some id /\
         lookup "SeniorCitizen" rec = Some sc /\
         (sc = VStr "Yes" \/ sc = VStr "No" \/ sc = VNaN) /\
         lookup "TotalCharges" rec = Some tc /\
         is_string tc = false) /\
    (exists ids,
       Forall2 (fun rec id => lookup "customerID" rec = Some id) recs ids /\
       distinct_keys ids = true).
Proof.
  intros son td df recs Hwf H.
  destruct (transform_data_ok son td df recs H)
    as (ci & si & ti & Hc & Hs & Ht & _ & ->).
  assert (Hfields : forall r,
    In r (keep_first (cell_at ci) [] (rows df)) ->
    let rec := combine (columns df) (transform_row son td si ti r) in
    lookup "customerID" rec = Some (cell_at ci r) /\
    lookup "SeniorCitizen" rec
      = Some (map_dict senior_citizen_map (cell_at si r)) /\
    lookup "TotalCharges" rec = Some (spec_coerce son td (cell_at ti r))).
  { intros r Hin.
    apply (transform_row_fields son td (columns df) ci si ti r Hc Hs Ht).
    apply well_formed_row; [ exact Hwf | ].
    eapply keep_first_In, Hin. }
  split.
  - intros rec Hin. apply in_map_iff in Hin.
    destruct Hin as (r & <- & Hin).
    destruct (Hfields r Hin) as (Hid & Hsc & Htc).
    eexists. eexists. eexists.
    split; [ exact Hid | ]. split; [ exact Hsc | ].
    split; [ | split; [ exact Htc | ] ].
    + rewrite map_dict_senior_citizen. unfold spec_senior_citizen.
      destruct (cell_eqb _ _); [ left; reflexivity | ].
      destruct (cell_eqb _ _); [ right; left | right; right ]; reflexivity.
    + unfold spec_coerce.
      destruct (strip (spec_text son (cell_at ti r))) as [| a t];
        [ reflexivity | ].
      destruct (td (String a t)); reflexivity.
  - exists (map (cell_at ci) (keep_first (cell_at ci) [] (rows df))).
    split; [ | apply keep_first_distinct ].
    revert Hfields.
    generalize (keep_first (cell_at ci) [] (rows df)) as kept.
    induction kept as [| r kept IH]; intros Hfields; simpl; constructor.
    + apply (Hfields r). left. reflexivity.
    + apply IH. intros r' Hin. apply Hfields. right. exact Hin.
Qed.

Lemma batch_invariant_witness :
  (forall rec, In rec example_batch ->
     exists id sc tc,
       lookup "customerID" rec = Some id /\
       lookup "SeniorCitizen" rec = Some sc /\
       (sc = VStr "Yes" \/ sc = VStr "No" \/ sc = VNaN) /\
       lookup "TotalCharges" rec = Some tc /\
       is_string tc = false) /\
  (exists ids,
     Forall2 (fun rec id => lookup "customerID" rec = Some id)
       example_batch ids /\
     distinct_keys ids = true).
Proof.
  apply (batch_invariant whole_number_text decimal_literal example_frame
           example_batch); reflexivity.
Defined.

(** *** The "TotalCharges" column *)

Lemma lstrip_whitespace (cp : N) (s : string) :
  In cp python_whitespace -> lstrip (utf8_encode cp ++ s) = lstrip s.
Proof.
  unfold python_whitespace. simpl In. intros H.
  repeat (destruct H as [<- | H]; [ reflexivity | ]).
  contradiction.
Qed.

Lemma lstrip_encode_all (cps : list N) (s : string) :
  Forall (fun cp => In cp python_whitespace) cps ->
  lstrip (encode_all cps ++ s) = lstrip s.
Proof.
  induction 1 as [| cp cps Hcp _ IH]; simpl; [ reflexivity | ].
  rewrite append_assoc, lstrip_whitespace by exact Hcp. exact IH.
Qed.

Lemma is_space_visible (x : N) :
  (33 <= x <= 126)%N -> is_space x = false.
Proof.
  intros Hx. unfold is_space, python_whitespace. simpl.
  repeat (rewrite (proj2 (N.eqb_neq x _)) by lia). reflexivity.
Qed.

Lemma visible_bounds (a : ascii) :
  visible a = true <-> (33 <= N_of_ascii a <= 126)%N.
Proof.
  unfold visible. rewrite Bool.andb_true_iff, N.leb_le, N.leb_le. tauto.
Qed.

Lemma space_width_visible (a : ascii) (s : string) :
  visible a = true -> space_width (String a s) = 0%nat.
Proof.
  intros Hv. apply visible_bounds in Hv.
  unfold space_width, decode_first.
  rewrite (proj2 (N.ltb_lt _ 128)) by lia.
  rewrite is_space_visible by exact Hv. reflexivity.
Qed.

Lemma lstrip_visible (a : ascii) (s : string) :
  visible a = true -> lstrip (String a s) = String a s.
Proof.
  intros Hv. simpl. rewrite (space_width_visible a s Hv). reflexivity.
Qed.

Lemma continuation_invisible (b : ascii) (y : N) :
  continuation b = Some y -> visible b = false.
Proof.
  unfold continuation, visible.
  destruct ((128 <=? N_of_ascii b) && (N_of_ascii b <? 192))%N eqn:H;
    [ | discriminate ].
  intros _. apply Bool.andb_true_iff in H. destruct H as [H _].
  apply N.leb_le in H.
  apply Bool.andb_false_iff. right. apply N.leb_gt. lia.
Qed.

Lemma high_invisible (a : ascii) :
  (N_of_ascii a <? 128)%N = false -> visible a = false.
Proof.
  intros H. apply N.ltb_ge in H. unfold visible.
  apply Bool.andb_false_iff. right. apply N.leb_gt. lia.
Qed.

(** What a positive [space_width] says about the bytes it counts. *)
Lemma space_width_cases (a : ascii) (s1 : string) :
  space_width (String a s1) = 0%nat \/
  (space_width (String a s1) = 1%nat /\ visible a = false) \/
  (space_width (String a s1) = 2%nat /\
   exists b s2, s1 = String b s2 /\ visible a = false /\ visible b = false) \/
  (space_width (String a s1) = 3%nat /\
   exists b c s3,
     s1 = String b (String c s3) /\
     visible a = false /\ visible b = false /\ visible c = false).
Proof.
  unfold space_width, decode_first.
  destruct (N_of_ascii a <? 128)%N eqn:H1.
  - destruct (is_space (N_of_ascii a)) eqn:Hs; [ | left; reflexivity ].
    right. left. split; [ reflexivity | ].
    destruct (visible a) eqn:Hv; [ | reflexivity ].
    apply visible_bounds in Hv. rewrite is_space_visible in Hs by exact Hv.
    discriminate.
  - pose proof (high_invisible a H1) as Ha.
    destruct (N_of_ascii a <? 194)%N; [ left; reflexivity | ].
    destruct (N_of_ascii a <? 224)%N.
    + destruct s1 as [| b s2]; [ left; reflexivity | ].
      destruct (continuation b) as [y |] eqn:Hb; [ | left; reflexivity ].
      destruct (is_space _); [ | left; reflexivity ].
      right. right. left. split; [ reflexivity | ].
      exists b, s2. repeat split; try assumption.
      apply (continuation_invisible b y Hb).
    + destruct (N_of_ascii a <? 240)%N; [ | left; reflexivity ].
      destruct s1 as [| b [| c s3]]; try (left; reflexivity).
      destruct (continuation b) as [y |] eqn:Hb; [ | left; reflexivity ].
      destruct (continuation c) as [z |] eqn:Hc; [ | left; reflexivity ].
      destruct (_ <? 2048)%N; [ left; reflexivity | ].
      destruct (is_space _); [ | left; reflexivity ].
      right. right. right. split; [ reflexivity | ].
      exists b, c, s3. repeat split; try assumption.
      * apply (continuation_invisible b y Hb).
      * apply (continuation_invisible c z Hc).
Qed.

Lemma lstrip_keeps_visible (n : nat) :
  forall s,
    (String.length s <= n)%nat -> has_visible s = true ->
    lstrip s <> EmptyString.
Proof.
  induction n as [| n IH]; intros s Hlen Hv.
  - destruct s; [ discriminate Hv | simpl in Hlen; lia ].
  - destruct s as [| a s1]; [ discriminate Hv | ].
    simpl in Hlen.
    destruct (space_width_cases a s1)
      as [H0 | [[H1 Ha] | [[H2 (b & s2 & -> & Ha & Hb)]
                          | [H3 (b & c & s3 & -> & Ha & Hb & Hc)]]]].
    + simpl. rewrite H0. discriminate.
    + simpl lstrip. rewrite H1. apply IH; [ lia | ].
      simpl in Hv. rewrite Ha in Hv. exact Hv.
    + simpl lstrip. rewrite H2. apply IH; [ simpl in Hlen; lia | ].
      simpl in Hv. rewrite Ha, Hb in Hv. exact Hv.
    + simpl lstrip. rewrite H3. apply IH; [ simpl in Hlen; lia | ].
      simpl in Hv. rewrite Ha, Hb, Hc in Hv. exact Hv.
Qed.

Lemma blank_has_no_visible (s : string) :
  has_visible s = true -> blank s = false.
Proof.
  intros Hv. unfold blank.
  pose proof (lstrip_keeps_visible (String.length s) s (Nat.le_refl _) Hv).
  destruct (lstrip s); [ contradiction | reflexivity ].
Qed.

Lemma rstrip_blank (s : string) : blank s = true -> rstrip s = EmptyString.
Proof.
  destruct s as [| a s1]; [ reflexivity | ].
  intros H. simpl. rewrite H. reflexivity.
Qed.

Lemma last_visible_has_visible (s t : string) :
  last_visible s = true -> has_visible (s ++ t) = true.
Proof.
  induction s as [| a s IH]; [ discriminate | ].
  destruct s as [| b s'].
  - simpl. intros ->. reflexivity.
  - intros H. pose proof (IH H) as IH'. simpl in IH'. simpl.
    rewrite IH'. apply Bool.orb_true_r.
Qed.

Lemma rstrip_core (core post : string) :
  last_visible core = true -> blank post = true ->
  rstrip (core ++ post) = core.
Proof.
  intros Hlast Hpost.
  induction core as [| a core IH]; [ discriminate Hlast | ].
  change (rstrip (String a (core ++ post)) = String a core).
  simpl rstrip.
  rewrite (blank_has_no_visible (String a (core ++ post)))
    by (apply (last_visible_has_visible (String a core) post), Hlast).
  f_equal. destruct core as [| b core'].
  - apply rstrip_blank, Hpost.
  - apply IH. exact Hlast.
Qed.

Lemma blank_encode_all (cps : list N) :
  Forall (fun cp => In cp python_whitespace) cps ->
  blank (encode_all cps) = true.
Proof.
  intros H. unfold blank.
  rewrite <- (append_empty_r (encode_all cps)).
  rewrite (lstrip_encode_all cps "" H). reflexivity.
Qed.

(** [strip] takes whitespace off both ends and leaves the rest: around a
    text that starts and ends with a printable character other than the
    space, or around nothing, any run of whitespace characters goes. *)
Lemma strip_spec (pre post : list N) (core : string) :
  Forall (fun cp => In cp python_whitespace) pre ->
  Forall (fun cp => In cp python_whitespace) post ->
  core = EmptyString \/
  (first_visible core = true /\ last_visible core = true) ->
  strip (encode_all pre ++ core ++ encode_all post) = core.
Proof.
  intros Hpre Hpost Hcore. unfold strip.
  rewrite (lstrip_encode_all pre _ Hpre).
  destruct Hcore as [-> | [Hfirst Hlast]].
  - simpl. apply rstrip_blank.
    pose proof (blank_encode_all post Hpost) as Hb. unfold blank in *.
    destruct (lstrip (encode_all post)) eqn:Hl; [ | discriminate Hb ].
    reflexivity.
  - destruct core as [| a core']; [ discriminate Hfirst | ].
    change (String a core' ++ encode_all post)%string
      with (String a (core' ++ encode_all post)).
    rewrite lstrip_visible by exact Hfirst.
    apply (rstrip_core (String a core') (encode_all post) Hlast).
    apply blank_encode_all, Hpost.
Qed.

Lemma strip_blank (s : string) : blank s = true -> strip s = EmptyString.
Proof.
  unfold strip, blank. destruct (lstrip s); [ reflexivity | discriminate ].
Qed.

Lemma strip_visible (core : string) :
  first_visible core = true -> last_visible core = true -> strip core = core.
Proof.
  intros Hfirst Hlast.
  pose proof (strip_spec [] [] core (Forall_nil _) (Forall_nil _)
                (or_intror (conj Hfirst Hlast))) as H.
  simpl in H. rewrite append_empty_r in H. exact H.
Qed.

(** C5.  The coercion of a "TotalCharges" value never raises and is the
    coercion the specification words, on the string form of the value (the
    text of a string, the printed form of a number, "nan" for a missing
    value).  A text of whitespace characters only, the empty text included,
    becomes the missing value, and so does a text whose stripped form does
    not parse.  Whitespace around a text that starts and ends with a
    printable character does not count: the value is what the parser reads
    from the text without it, so "29.85" with any whitespace around it
    becomes the number the parser reads from "29.85".  A number goes through
    its printed form, and a missing value through "nan".  [strip] itself
    removes the whitespace characters of Python, in their UTF-8 form, from
    both ends and nothing else.  In the batch, the field of a record is that
    coercion of the raw value of its row. *)
Theorem total_charges_coercion :
  (forall (str_of_num : number -> string)
          (to_double : string -> option number),
     (forall c,
        coerce_total_charges str_of_num to_double c
        = Ok (spec_coerce str_of_num to_double c)) /\
     (forall cps,
        Forall (fun cp => In cp python_whitespace) cps ->
        coerce_total_charges str_of_num to_double (VStr (encode_all cps))
        = Ok VNaN) /\
     (forall s,
        to_double (strip s) = None ->
        coerce_total_charges str_of_num to_double (VStr s) = Ok VNaN) /\
     (forall pre post core,
        Forall (fun cp => In cp python_whitespace) pre ->
        Forall (fun cp => In cp python_whitespace) post ->
        first_visible core = true -> last_visible core = true ->
        coerce_total_charges str_of_num to_double
          (VStr (encode_all pre ++ core ++ encode_all post))
        = Ok (match to_double core with
              | Some n => VNum n
              | None => VNaN
              end)) /\
     (forall pre post n,
        Forall (fun cp => In cp python_whitespace) pre ->
        Forall (fun cp => In cp python_whitespace) post ->
        to_double "29.85" = Some n ->
        coerce_total_charges str_of_num to_double
          (VStr (encode_all pre ++ "29.85" ++ encode_all post))
        = Ok (VNum n)) /\
     (forall n,
        first_visible (str_of_num n) = true ->
        last_visible (str_of_num n) = true ->
        coerce_total_charges str_of_num to_double (VNum n)
        = Ok (match to_double (str_of_num n) with
              | Some m => VNum m
              | None => VNaN
              end)) /\
     coerce_total_charges str_of_num to_double VNaN
     = Ok (match to_double "nan" with
           | Some n => VNum n
           | None => VNaN
           end) /\
     (forall (df : DataFrame) (recs : list record),
        well_formed df = true ->
        transform_data str_of_num to_double df = Ok recs ->
        exists ci si ti,
          index_of "customerID" (columns df) = Some ci /\
          index_of "TotalCharges" (columns df) = Some ti /\
          recs = map (fun r => combine (columns df)
                                 (transform_row str_of_num to_double si ti r))
                     (keep_first (cell_at ci) [] (rows df)) /\
          forall r, In r (keep_first (cell_at ci) [] (rows df)) ->
            lookup "TotalCharges"
              (combine (columns df)
                 (transform_row str_of_num to_double si ti r))
            = Some (spec_coerce str_of_num to_double (cell_at ti r)))) /\
  (forall pre post core,
     Forall (fun cp => In cp python_whitespace) pre ->
     Forall (fun cp => In cp python_whitespace) post ->
     core = EmptyString \/
     (first_visible core = true /\ last_visible core = true) ->
     strip (encode_all pre ++ core ++ encode_all post) = core) /\
  utf8_encode 32 = " "%string /\
  utf8_encode 160
  = String (ascii_of_N 194) (String (ascii_of_N 160) EmptyString) /\
  utf8_encode 12288
  = String (ascii_of_N 227)
      (String (ascii_of_N 128) (String (ascii_of_N 128) EmptyString)) /\
  strip (utf8_encode 8203 ++ "1") = (utf8_encode 8203 ++ "1")%string.
Proof.
  split; [ | split; [ exact strip_spec | repeat split ] ].
  intros son td.
  assert (Hspec : forall c,
    coerce_total_charges son td c = Ok (spec_coerce son td c)).
  { intros c. rewrite coerce_total_charges_eq, clean_then_numeric.
    reflexivity. }
  assert (Hcore : forall pre post core,
    Forall (fun cp => In cp python_whitespace) pre ->
    Forall (fun cp => In cp python_whitespace) post ->
    first_visible core = true -> last_visible core = true ->
    coerce_total_charges son td
      (VStr (encode_all pre ++ core ++ encode_all post))
    = Ok (match td core with Some n => VNum n | None => VNaN end)).
  { intros pre post core Hpre Hpost Hfirst Hlast.
    rewrite Hspec. unfold spec_coerce. cbn [spec_text].
    rewrite (strip_spec pre post core Hpre Hpost
               (or_intror (conj Hfirst Hlast))).
    destruct core as [| a t]; [ discriminate Hfirst | reflexivity ]. }
  split; [ exact Hspec | ].
  split; [ | split; [ | split; [ exact Hcore | split; [ | split; [ | split ] ] ] ] ].
  - intros cps Hcps. rewrite Hspec. unfold spec_coerce. cbn [spec_text].
    rewrite (strip_blank _ (blank_encode_all cps Hcps)). reflexivity.
  - intros s Hs. rewrite Hspec. unfold spec_coerce. cbn [spec_text].
    destruct (strip s) as [| a t]; [ reflexivity | ].
    rewrite Hs. reflexivity.
  - intros pre post n Hpre Hpost Hn.
    rewrite (Hcore pre post "29.85"%string Hpre Hpost eq_refl eq_refl).
    rewrite Hn. reflexivity.
  - intros n Hfirst Hlast. rewrite Hspec. unfold spec_coerce.
    cbn [spec_text]. rewrite (strip_visible _ Hfirst Hlast).
    destruct (son n) as [| a t]; [ discriminate Hfirst | reflexivity ].
  - rewrite Hspec. reflexivity.
  - intros df recs Hwf H.
    destruct (transform_data_ok son td df recs H)
      as (ci & si & ti & Hc & Hs & Ht & _ & Hrecs).
    exists ci, si, ti. repeat split; try assumption.
    intros r Hin.
    apply (transform_row_fields son td (columns df) ci si ti r Hc Hs Ht).
    apply well_formed_row; [ exact Hwf | ].
    eapply keep_first_In, Hin.
Qed.

Lemma total_charges_coercion_witness :
  coerce_total_charges whole_number_text decimal_literal
    (VStr (encode_all [32; 160; 9]%N)) = Ok VNaN /\
  coerce_total_charges whole_number_text decimal_literal (VStr "n/a")
    = Ok VNaN /\
  coerce_total_charges whole_number_text decimal_literal
    (VStr (encode_all [160; 32]%N ++ "29.85" ++ encode_all [8201; 10]%N))
    = Ok (VNum (Finite (2985 # 100))) /\
  coerce_total_charges whole_number_text decimal_literal
    (VNum (Finite (42 # 1)))
    = Ok (VNum (Finite (42 # 1))) /\
  strip (encode_all [12288]%N ++ "10.5" ++ encode_all [32; 32]%N)
    = "10.5"%string /\
  exists ci si ti,
    index_of "customerID" (columns example_frame) = Some ci /\
    index_of "TotalCharges" (columns example_frame) = Some ti /\
    example_batch
    = map (fun r => combine (columns example_frame)
                      (transform_row whole_number_text decimal_literal si ti r))
          (keep_first (cell_at ci) [] (rows example_frame)) /\
    forall r, In r (keep_first (cell_at ci) [] (rows example_frame)) ->
      lookup "TotalCharges"
        (combine (columns example_frame)
           (transform_row whole_number_text decimal_literal si ti r))
      = Some (spec_coerce whole_number_text decimal_literal (cell_at 2 r)).
Proof.
  pose proof (proj1 total_charges_coercion whole_number_text decimal_literal)
    as (_ & Hblank & Hfail & _ & Hnum & Hprinted & _ & Hbatch).
  assert (Hws : forall cps,
    forallb (fun cp => existsb (N.eqb cp) python_whitespace) cps = true ->
    Forall (fun cp => In cp python_whitespace) cps).
  { intros cps H. apply Forall_forall. intros cp Hin.
    rewrite forallb_forall in H. specialize (H cp Hin).
    apply existsb_exists in H. destruct H as (x & Hx & He).
    apply N.eqb_eq in He. subst x. exact Hx. }
  split; [ apply Hblank, Hws; reflexivity | ].
  split; [ apply Hfail; reflexivity | ].
  split; [ apply Hnum; [ apply Hws | apply Hws | ]; reflexivity | ].
  split; [ apply (Hprinted (Finite (42 # 1))); reflexivity | ].
  split.
  { apply (proj1 (proj2 total_charges_coercion)).
    - apply Hws. reflexivity.
    - apply Hws. reflexivity.
    - right. split; reflexivity. }
  destruct (Hbatch example_frame example_batch eq_refl eq_refl)
    as (ci & si & ti & Hc & Ht & Hrecs & Hall).
  exists ci, si, ti. repeat split; try assumption.
  intros r Hin. rewrite (Hall r Hin).
  replace ti with 2%nat by (simpl in Ht; congruence). reflexivity.
Defined.

(** * Further properties of the code *)

(** ** The loader, path by path *)

Lemma bulk_write_shape (uf : list string) (docs : list record) :
  forall existing coll ok bad,
    bulk_write uf existing docs = (coll, ok, bad) ->
    coll = existing ++ ok /\ incl ok docs /\
    (bad = 0%nat -> ok = docs).
Proof.
  induction docs as [| d ds IH]; intros existing coll ok bad; simpl.
  - intros H. inversion H; subst. rewrite app_nil_r.
    repeat split. apply incl_refl.
  - destruct (violates uf existing d).
    + destruct (bulk_write uf existing ds) as [[coll' ok'] bad'] eqn:Hb.
      intros H. inversion H; subst.
      destruct (IH _ _ _ _ Hb) as (Hc & Hi & _).
      repeat split; [ exact Hc | | discriminate ].
      apply incl_tl, Hi.
    + destruct (bulk_write uf (existing ++ [d]) ds) as [[coll' ok'] bad'] eqn:Hb.
      intros H. inversion H; subst.
      destruct (IH _ _ _ _ Hb) as (Hc & Hi & Hall).
      repeat split.
      * rewrite Hc, <- app_assoc. reflexivity.
      * apply incl_cons; [ left; reflexivity | apply incl_tl, Hi ].
      * intros Hz. rewrite (Hall Hz). reflexivity.
Qed.

Ltac step_store w op :=
  destruct (raises w op) eqn:?;
  cbn [raises documents unique_fields open_clients calls at_line try_except
       fst snd pred].

Ltac open_load_data :=
  unfold load_data, try_exceptM, bindM, at_lineM, MongoClient, client_getitem,
    db_getitem, delete_many, create_index, insert_many, close, guarded, ret,
    log;
  cbn [raises documents unique_fields open_clients calls].



(** X2.  When [load_data] raises on a non-empty batch, the line carried by
    the exception tells what became of the collection: a failure before the
    clearing of line 158 leaves the old documents in place; a failure of the
    index creation (line 161) or of the insertion (line 163) comes after the
    clearing, and no old document is left, only documents of the batch. *)
Theorem load_data_failure_and_old_documents :
  forall (self : CustomerChurnETL) (records : list record) (w : Mongo)
         (e : exn) (l : nat),
    records <> [] ->
    fst (load_data self records w) = Raise e l ->
    (exists ln, exn_lineno e = Some ln /\
       In ln [148; 154; 155; 158; 161; 163]%nat) /\
    (forall ln, exn_lineno e = Some ln -> (ln < 158)%nat ->
       documents (snd (load_data self records w)) = documents w) /\
    (forall ln, exn_lineno e = Some ln -> (158 < ln)%nat ->
       forall d, In d (documents (snd (load_data self records w))) ->
         In d records).
Proof.
  intros self records w e l Hne.
  destruct records as [| d0 ds]; [ contradiction | ].
  open_load_data.
  step_store w OpMongoClient.
  { intros H. inversion H; subst. simpl. split; [ | split ].
    - eexists. split; [ reflexivity | simpl; tauto ].
    - reflexivity.
    - intros ln Hl. inversion Hl; subst. lia. }
  step_store w OpDatabase.
  { intros H. inversion H; subst. simpl. split; [ | split ].
    - eexists. split; [ reflexivity | simpl; tauto ].
    - reflexivity.
    - intros ln Hl. inversion Hl; subst. lia. }
  step_store w OpCollection.
  { intros H. inversion H; subst. simpl. split; [ | split ].
    - eexists. split; [ reflexivity | simpl; tauto ].
    - reflexivity.
    - intros ln Hl. inversion Hl; subst. lia. }
  step_store w OpDeleteMany.
  { intros H. inversion H; subst. simpl. split; [ | split ].
    - eexists. split; [ reflexivity | simpl; tauto ].
    - intros ln Hl. inversion Hl; subst. lia.
    - intros ln Hl. inversion Hl; subst. lia. }
  step_store w OpCreateIndex.
  { intros H. inversion H; subst. simpl. split; [ | split ].
    - eexists. split; [ reflexivity | simpl; tauto ].
    - intros ln Hl. inversion Hl; subst. lia.
    - intros ln _ _ d []. }
  step_store w OpInsertMany.
  { intros H. inversion H; subst. simpl. split; [ | split ].
    - eexists. split; [ reflexivity | simpl; tauto ].
    - intros ln Hl. inversion Hl; subst. lia.
    - intros ln _ _ d []. }
  destruct (bulk_write _ _ _) as [[coll ok] bad] eqn:Hb.
  destruct (bulk_write_shape _ _ _ _ _ _ Hb) as (Hc & Hi & _).
  destruct bad; [ discriminate | ].
  cbn [raises documents unique_fields open_clients calls at_line try_except
       fst snd pred].
  intros H. inversion H; subst e l. simpl exn_lineno. split; [ | split ].
  - eexists. split; [ reflexivity | simpl; tauto ].
  - intros ln Hl. inversion Hl; subst. lia.
  - intros ln _ _ d Hd. subst coll. simpl in Hd. apply Hi, Hd.
Qed.

Lemma load_data_failure_and_old_documents_witness :
  (exists ln,
     exn_lineno (CustomerChurnException
                   (LibraryError "pymongo.errors.ServerSelectionTimeoutError")
                   (Some 163%nat) (Some etl_file)) = Some ln /\
     In ln [148; 154; 155; 158; 161; 163]%nat) /\
  forall d,
    In d (documents (snd (load_data example_etl example_batch store_lost))) ->
    In d example_batch.
Proof.
  destruct (load_data_failure_and_old_documents example_etl example_batch
              store_lost _ 176%nat ltac:(discriminate) eq_refl)
    as (Hline & _ & Hgone).
  split; [ exact Hline | ].
  apply (Hgone 163%nat); [ reflexivity | lia ].
Defined.

(** X3.  Whatever happens, the store calls of [load_data] on a non-empty
    batch are a non-empty initial part of: open the client, clear the
    collection, create the index, insert, close; all five are made exactly
    when the call returns.  So nothing is inserted before the clearing and
    the unique index, and nothing follows [close]. *)
Theorem load_data_call_order :
  forall (self : CustomerChurnETL) (records : list record) (w : Mongo),
    records <> [] ->
    exists k,
      (1 <= k <= 5)%nat /\
      calls (snd (load_data self records w))
        = calls w ++ firstn k (load_calls self records) /\
      (k = 5%nat <-> exists n, fst (load_data self records w) = Ok n).
Proof.
  intros self records w Hne.
  destruct records as [| d0 ds]; [ contradiction | ].
  assert (Hno : forall (e : exn) (l : nat) (k : nat),
            k <> 5%nat ->
            (k = 5%nat <-> exists n : nat, @Raise nat e l = Ok n)).
  { intros e l k Hk. split; [ congruence | intros (n & H); discriminate H ]. }
  open_load_data. unfold load_calls.
  step_store w OpMongoClient.
  { exists 1%nat. split; [ lia | ]. split; [ reflexivity | ].
    apply Hno. lia. }
  step_store w OpDatabase.
  { exists 1%nat. split; [ lia | ]. split; [ reflexivity | ].
    apply Hno. lia. }
  step_store w OpCollection.
  { exists 1%nat. split; [ lia | ]. split; [ reflexivity | ].
    apply Hno. lia. }
  step_store w OpDeleteMany.
  { exists 2%nat. split; [ lia | ]. split.
    - rewrite <- app_assoc. reflexivity.
    - apply Hno. lia. }
  step_store w OpCreateIndex.
  { exists 3%nat. split; [ lia | ]. split.
    - rewrite <- !app_assoc. reflexivity.
    - apply Hno. lia. }
  step_store w OpInsertMany.
  { exists 4%nat. split; [ lia | ]. split.
    - rewrite <- !app_assoc. reflexivity.
    - apply Hno. lia. }
  destruct (bulk_write _ _ _) as [[coll ok] bad].
  destruct bad;
    cbn [raises documents unique_fields open_clients calls at_line try_except
         fst snd pred].
  - exists 5%nat. split; [ lia | ]. split.
    + rewrite <- !app_assoc. reflexivity.
    + split; [ intros _; eexists; reflexivity | reflexivity ].
  - exists 4%nat. split; [ lia | ]. split.
    + rewrite <- !app_assoc. reflexivity.
    + apply Hno. lia.
Qed.

Lemma load_data_call_order_witness :
  exists k,
    (1 <= k <= 5)%nat /\
    calls (snd (load_data example_etl example_batch store_down))
      = calls store_down ++ firstn k (load_calls example_etl example_batch) /\
    (k = 5%nat <->
     exists n, fst (load_data example_etl example_batch store_down) = Ok n).
Proof.
  apply (load_data_call_order example_etl example_batch store_down).
  discriminate.
Defined.

(** ** Transformation and loading together *)

Lemma distinct_keys_app (l1 l2 : list cell) (k : cell) :
  distinct_keys (l1 ++ k :: l2) = true ->
  forall e, In e l1 -> cell_eqb e k = false.
Proof.
  induction l1 as [| a l1 IH]; simpl; [ tauto | ].
  intros H e [<- | Hin].
  - apply Bool.andb_true_iff in H. destruct H as [H _].
    apply Bool.negb_true_iff in H. rewrite existsb_app in H.
    apply Bool.orb_false_iff in H. destruct H as [_ H]. simpl in H.
    apply Bool.orb_false_iff in H. apply H.
  - apply Bool.andb_true_iff in H. destruct H as [_ H]. apply (IH H e Hin).
Qed.

Lemma Forall2_lookup_In (name : string) (docs : list record)
    (ids : list cell) :
  Forall2 (fun rec id => lookup name rec = Some id) docs ids ->
  forall e, In e docs -> exists id, In id ids /\ lookup name e = Some id.
Proof.
  induction 1 as [| d id ds ids' Hd _ IH]; intros e; simpl; [ tauto | ].
  intros [<- | Hin].
  - exists id. split; [ left; reflexivity | exact Hd ].
  - destruct (IH e Hin) as (id' & Hi & Hl).
    exists id'. split; [ right; exact Hi | exact Hl ].
Qed.

Lemma lookup_combine_absent (name : string) (cols : list string) :
  ~ In name cols -> forall r : list cell, lookup name (combine cols r) = None.
Proof.
  induction cols as [| c cs IH]; intros Hn r; [ reflexivity | ].
  destruct r as [| v r]; [ reflexivity | ]. simpl.
  destruct (String.eqb c name) eqn:Hc.
  - apply String.eqb_eq in Hc. contradiction Hn. left. exact Hc.
  - apply IH. intros Hin. apply Hn. right. exact Hin.
Qed.

Lemma bulk_write_distinct (uf : list string) (docs : list record) :
  (forall f, In f uf -> f = "customerID"%string) ->
  forall ids existing eids,
    (forall d, In d docs -> lookup "_id" d = None) ->
    Forall2 (fun rec id => lookup "customerID" rec = Some id) existing eids ->
    Forall2 (fun rec id => lookup "customerID" rec = Some id) docs ids ->
    distinct_keys (eids ++ ids) = true ->
    bulk_write uf existing docs = (existing ++ docs, docs, 0%nat).
Proof.
  intros Huf.
  induction docs as [| d ds IH]; intros ids existing eids Hno He Hd Hdist.
  - simpl. rewrite app_nil_r. reflexivity.
  - inversion Hd as [| d' id ds' ids' Hid Hds]; subst.
    assert (Hv : violates uf existing d = false).
    { unfold violates. rewrite (Hno d (or_introl eq_refl)).
      cbn [orb].
      destruct (existsb _ uf) eqn:Hex; [ | reflexivity ].
      apply existsb_exists in Hex. destruct Hex as (f & Hf & Hex).
      apply Huf in Hf. subst f.
      apply existsb_exists in Hex. destruct Hex as (e & Hin & Heq).
      destruct (Forall2_lookup_In _ _ _ He e Hin) as (eid & Hi & Hl).
      rewrite Hl, Hid in Heq. simpl in Heq.
      rewrite (distinct_keys_app _ _ _ Hdist eid Hi) in Heq.
      discriminate. }
    simpl. rewrite Hv.
    rewrite (IH ids' (existing ++ [d]) (eids ++ [id])).
    + rewrite <- app_assoc. reflexivity.
    + intros d' Hin. apply Hno. right. exact Hin.
    + apply Forall2_app; [ exact He | ]. constructor; [ exact Hid | constructor ].
    + exact Hds.
    + rewrite <- app_assoc. exact Hdist.
Qed.

Lemma transform_batch_ids (str_of_num : number -> string)
    (to_double : string -> option number) (df : DataFrame)
    (recs : list record) :
  well_formed df = true ->
  transform_data str_of_num to_double df = Ok recs ->
  recs <> [] /\
  exists ids,
    Forall2 (fun rec id => lookup "customerID" rec = Some id) recs ids /\
    distinct_keys ids = true.
Proof.
  intros Hwf H.
  destruct (transform_data_ok str_of_num to_double df recs H)
    as (ci & si & ti & Hc & Hs & Ht & He & ->).
  split.
  - destruct (rows df) as [| r rs] eqn:Hr.
    + rewrite (empty_of_no_rows df Hr) in He. discriminate.
    + simpl. discriminate.
  - exists (map (cell_at ci) (keep_first (cell_at ci) [] (rows df))).
    split; [ | apply keep_first_distinct ].
    assert (Hall : forall r,
      In r (keep_first (cell_at ci) [] (rows df)) ->
      lookup "customerID"
        (combine (columns df) (transform_row str_of_num to_double si ti r))
      = Some (cell_at ci r)).
    { intros r Hin.
      apply (transform_row_fields str_of_num to_double (columns df)
               ci si ti r Hc Hs Ht).
      apply well_formed_row; [ exact Hwf | ].
      eapply keep_first_In, Hin. }
    revert Hall.
    generalize (keep_first (cell_at ci) [] (rows df)) as kept.
    induction kept as [| r kept IH]; intros Hall; simpl; constructor.
    + apply Hall. left. reflexivity.
    + apply IH. intros r' Hin. apply Hall. right. exact Hin.
Qed.

Lemma load_transformed_batch (str_of_num : number -> string)
    (to_double : string -> option number) (df : DataFrame)
    (recs : list record) (self : CustomerChurnETL) (w : Mongo) :
  well_formed df = true ->
  ~ In "_id"%string (columns df) ->
  transform_data str_of_num to_double df = Ok recs ->
  (forall op, raises w op = false) ->
  (forall f, In f (unique_fields w) -> f = "customerID"%string) ->
  fst (load_data self recs w) = Ok (List.length recs) /\
  documents (snd (load_data self recs w)) = recs /\
  open_clients (snd (load_data self recs w)) = open_clients w.
Proof.
  intros Hwf Hid H Hup Huf.
  destruct (transform_batch_ids str_of_num to_double df recs Hwf H)
    as (Hne & ids & Hids & Hdist).
  assert (Hno : forall d, In d recs -> lookup "_id" d = None).
  { destruct (transform_data_ok str_of_num to_double df recs H)
      as (ci & si & ti & _ & _ & _ & _ & Hrecs).
    intros d Hin. rewrite Hrecs in Hin. apply in_map_iff in Hin.
    destruct Hin as (r & <- & _). apply lookup_combine_absent, Hid. }
  destruct recs as [| d ds]; [ contradiction Hne; reflexivity | ].
  open_load_data.
  step_store w OpMongoClient; [ rewrite Hup in *; discriminate | ].
  step_store w OpDatabase; [ rewrite Hup in *; discriminate | ].
  step_store w OpCollection; [ rewrite Hup in *; discriminate | ].
  step_store w OpDeleteMany; [ rewrite Hup in *; discriminate | ].
  step_store w OpCreateIndex; [ rewrite Hup in *; discriminate | ].
  step_store w OpInsertMany; [ rewrite Hup in *; discriminate | ].
  rewrite (bulk_write_distinct ("customerID"%string :: unique_fields w)
             (d :: ds)) with (ids := ids) (eids := []).
  - repeat split.
  - intros f [<- | Hf]; [ reflexivity | apply Huf, Hf ].
  - exact Hno.
  - constructor.
  - exact Hids.
  - exact Hdist.
Qed.

(** X4.  A batch that [transform_data] produced from a well-formed table
    without an "_id" column is loaded whole: against a store that refuses no
    operation and has no unique index other than on "customerID" (and the
    one on "_id" that every collection has), [load_data] returns the size of
    the batch and the collection holds the batch; the unique indexes never
    reject a record, because deduplication made the keys distinct and the
    records bring no "_id" of their own. *)
Theorem transformed_batch_loads_whole :
  forall (str_of_num : number -> string) (to_double : string -> option number)
         (df : DataFrame) (recs : list record)
         (self : CustomerChurnETL) (w : Mongo),
    well_formed df = true ->
    ~ In "_id"%string (columns df) ->
    transform_data str_of_num to_double df = Ok recs ->
    (forall op, raises w op = false) ->
    (forall f, In f (unique_fields w) -> f = "customerID"%string) ->
    fst (load_data self recs w) = Ok (List.length recs) /\
    documents (snd (load_data self recs w)) = recs.
Proof.
  intros son td df recs self w Hwf Hid H Hup Huf.
  destruct (load_transformed_batch son td df recs self w Hwf Hid H Hup Huf)
    as (Hok & Hdocs & _).
  split; assumption.
Qed.

Lemma transformed_batch_loads_whole_witness :
  fst (load_data example_etl example_batch store_up)
    = Ok (List.length example_batch) /\
  documents (snd (load_data example_etl example_batch store_up))
    = example_batch.
Proof.
  apply (transformed_batch_loads_whole whole_number_text decimal_literal
           example_frame example_batch example_etl store_up).
  - reflexivity.
  - simpl. intros [H | [H | [H | []]]]; discriminate H.
  - reflexivity.
  - intros op. reflexivity.
  - intros f [].
Defined.

(** ** The orchestration *)

(** [run_etl], outcome by outcome. *)
Lemma run_etl_eq (dataset_download : option string -> result string)
    (glob_csv : string -> list string)
    (read_csv : string -> result DataFrame)
    (str_of_num : number -> string) (to_double : string -> option number)
    (self : CustomerChurnETL) (w : Mongo) :
  run_etl dataset_download glob_csv read_csv str_of_num to_double self w
  = match extract_data dataset_download glob_csv read_csv self with
    | Raise e _ =>
        (Raise (CustomerChurnException e (Some 185%nat) (Some etl_file)) 196, w)
    | Ok df =>
        match transform_data str_of_num to_double df with
        | Raise e _ =>
            (Raise (CustomerChurnException e (Some 186%nat) (Some etl_file))
                   196, w)
        | Ok records =>
            match load_data self records w with
            | (Raise e _, w') =>
                (Raise (CustomerChurnException e (Some 187%nat)
                          (Some etl_file)) 196, w')
            | (Ok _, w') => (Ok tt, w')
            end
        end
    end.
Proof.
  unfold run_etl, try_exceptM, bindM, at_lineM, lift, ret.
  destruct (extract_data dataset_download glob_csv read_csv self)
    as [df | e l]; [ | reflexivity ].
  cbn [at_line].
  destruct (transform_data str_of_num to_double df) as [recs | e l];
    [ | reflexivity ].
  cbn [at_line].
  destruct (load_data self recs w) as [[n | e l] w']; reflexivity.
Qed.

(** X5.  [run_etl] does not touch the store unless extraction and
    transformation both succeeded: when either raises, [run_etl] raises a
    [CustomerChurnException] around the stage's own, with line 185 for
    extraction and 186 for transformation, and the world is as before. *)
Theorem run_etl_early_failure_leaves_store :
  forall (dataset_download : option string -> result string)
         (glob_csv : string -> list string)
         (read_csv : string -> result DataFrame)
         (str_of_num : number -> string) (to_double : string -> option number)
         (self : CustomerChurnETL) (w : Mongo),
    (forall e l,
       extract_data dataset_download glob_csv read_csv self = Raise e l ->
       run_etl dataset_download glob_csv read_csv str_of_num to_double self w
       = (Raise (CustomerChurnException e (Some 185%nat) (Some etl_file)) 196,
          w)) /\
    (forall df e l,
       extract_data dataset_download glob_csv read_csv self = Ok df ->
       transform_data str_of_num to_double df = Raise e l ->
       run_etl dataset_download glob_csv read_csv str_of_num to_double self w
       = (Raise (CustomerChurnException e (Some 186%nat) (Some etl_file)) 196,
          w)) /\
    (calls (snd (run_etl dataset_download glob_csv read_csv str_of_num
                   to_double self w)) <> calls w ->
     exists df records,
       extract_data dataset_download glob_csv read_csv self = Ok df /\
       transform_data str_of_num to_double df = Ok records /\
       records <> []).
Proof.
  intros dl glob rc son td self w. rewrite run_etl_eq.
  split; [ | split ].
  - intros e l H. rewrite H. reflexivity.
  - intros df e l H1 H2. rewrite H1, H2. reflexivity.
  - destruct (extract_data dl glob rc self) as [df | e l];
      [ | intros H; contradiction H; reflexivity ].
    destruct (transform_data son td df) as [recs | e l] eqn:Ht;
      [ | intros H; contradiction H; reflexivity ].
    intros H. exists df, recs.
    split; [ reflexivity | ]. split; [ exact Ht | ].
    intros Hr. subst recs.
    change (load_data self [] w) with (@Ok nat 0%nat, w) in H.
    contradiction H. reflexivity.
Qed.

Lemma run_etl_early_failure_leaves_store_witness :
  run_etl example_download no_csv example_read_csv whole_number_text
    decimal_literal example_etl store_up
  = (Raise (CustomerChurnException
              (CustomerChurnException
                 (ValueError "Expected exactly one CSV file in dataset directory")
                 (Some 82%nat) (Some etl_file))
              (Some 185%nat) (Some etl_file)) 196,
     store_up) /\
  run_etl example_download one_csv empty_read_csv whole_number_text
    decimal_literal example_etl store_up
  = (Raise (CustomerChurnException
              (CustomerChurnException
                 (ValueError "Extracted dataset is empty")
                 (Some 87%nat) (Some etl_file))
              (Some 185%nat) (Some etl_file)) 196,
     store_up).
Proof.
  split.
  - apply (proj1 (run_etl_early_failure_leaves_store example_download no_csv
                    example_read_csv whole_number_text decimal_literal
                    example_etl store_up) _ 94%nat).
    reflexivity.
  - apply (proj1 (run_etl_early_failure_leaves_store example_download one_csv
                    empty_read_csv whole_number_text decimal_literal
                    example_etl store_up) _ 94%nat).
    reflexivity.
Defined.

(** X6.  End to end: when the snapshot holds one CSV file that parses to a
    well-formed table without an "_id" column on which the transformation
    succeeds, and the store refuses nothing and has no unique index other
    than on "customerID" (and the one on "_id"), [run_etl] returns, the
    collection then holds exactly the batch of the transformation (whatever
    it held before), and no client stays open. *)
Theorem run_etl_end_to_end :
  forall (dataset_download : option string -> result string)
         (glob_csv : string -> list string)
         (read_csv : string -> result DataFrame)
         (str_of_num : number -> string) (to_double : string -> option number)
         (self : CustomerChurnETL) (w : Mongo)
         (dir f : string) (df : DataFrame) (records : list record),
    dataset_download (data_source self) = Ok dir ->
    glob_csv dir = [f] ->
    read_csv f = Ok df ->
    well_formed df = true ->
    ~ In "_id"%string (columns df) ->
    transform_data str_of_num to_double df = Ok records ->
    (forall op, raises w op = false) ->
    (forall g, In g (unique_fields w) -> g = "customerID"%string) ->
    fst (run_etl dataset_download glob_csv read_csv str_of_num to_double
           self w) = Ok tt /\
    documents (snd (run_etl dataset_download glob_csv read_csv str_of_num
                      to_double self w)) = records /\
    open_clients (snd (run_etl dataset_download glob_csv read_csv str_of_num
                         to_double self w)) = open_clients w.
Proof.
  intros dl glob rc son td self w dir f df recs Hdl Hg Hrc Hwf Hid Ht Hup Huf.
  assert (He : empty df = false).
  { destruct (transform_data_ok son td df recs Ht)
      as (_ & _ & _ & _ & _ & _ & He & _). exact He. }
  assert (Hex : extract_data dl glob rc self = Ok df).
  { unfold extract_data. rewrite Hdl. simpl. rewrite Hg. simpl.
    rewrite Hrc. simpl. rewrite He. reflexivity. }
  rewrite run_etl_eq, Hex, Ht.
  destruct (load_transformed_batch son td df recs self w Hwf Hid Ht Hup Huf)
    as (Hok & Hdocs & Hopen).
  destruct (load_data self recs w) as [[n | e l] w']; simpl in *.
  - repeat split; assumption.
  - discriminate Hok.
Qed.

Lemma run_etl_end_to_end_witness :
  fst (run_etl example_download one_csv example_read_csv whole_number_text
         decimal_literal example_etl store_up) = Ok tt /\
  documents (snd (run_etl example_download one_csv example_read_csv
                    whole_number_text decimal_literal example_etl store_up))
    = example_batch /\
  open_clients (snd (run_etl example_download one_csv example_read_csv
                       whole_number_text decimal_literal example_etl store_up))
    = open_clients store_up.
Proof.
  apply (run_etl_end_to_end example_download one_csv example_read_csv
           whole_number_text decimal_literal example_etl store_up
           "/cache/telco" "/cache/telco/churn.csv" example_frame example_batch);
    try reflexivity.
  - simpl. intros [H | [H | [H | []]]]; discriminate H.
  - intros g [].
Defined.

(** X7.  A pipeline object that was constructed has the four settings the
    environment gave, none of them unset or empty, and the certificate
    bundle of [certifi.where()]. *)
Theorem constructed_pipeline_is_configured :
  forall (getenv : string -> option string) (certifi_where : string)
         (self : CustomerChurnETL),
    CustomerChurnETL_init getenv certifi_where = Ok self ->
    mongodb_url self = getenv "MONGODB_URL" /\
    data_source self = getenv "DATA_SOURCE" /\
    database self = getenv "MONGODB_DATABASE" /\
    collection self = getenv "MONGODB_COLLECTION" /\
    ca_file self = certifi_where /\
    falsy (mongodb_url self) = false /\
    falsy (data_source self) = false /\
    falsy (database self) = false /\
    falsy (collection self) = false.
Proof.
  intros getenv ca self. rewrite CustomerChurnETL_init_eq.
  destruct (filter (fun k => falsy (getenv k)) required_names)
    as [| k ks] eqn:Hf; [ | discriminate ].
  intros H. inversion H; subst self. simpl.
  assert (Hall : forall k, In k required_names -> falsy (getenv k) = false).
  { intros k Hin. destruct (falsy (getenv k)) eqn:Hk; [ | reflexivity ].
    assert (Hk' : In k (filter (fun k => falsy (getenv k)) required_names))
      by (apply filter_In; split; assumption).
    rewrite Hf in Hk'. contradiction. }
  repeat split; apply Hall; simpl; tauto.
Qed.

Lemma constructed_pipeline_is_configured_witness :
  mongodb_url example_etl = full_env "MONGODB_URL" /\
  data_source example_etl = full_env "DATA_SOURCE" /\
  database example_etl = full_env "MONGODB_DATABASE" /\
  collection example_etl = full_env "MONGODB_COLLECTION" /\
  ca_file example_etl = example_ca_file /\
  falsy (mongodb_url example_etl) = false /\
  falsy (data_source example_etl) = false /\
  falsy (database example_etl) = false /\
  falsy (collection example_etl) = false.
Proof.
  apply (constructed_pipeline_is_configured full_env example_ca_file
           example_etl).
  reflexivity.
Defined.

(** X8.  [main] with an incomplete environment raises before anything else
    happens: the exception is a [CustomerChurnException] located at line 26
    of the script, around the one of the constructor, around the
    [ValueError] that lists the missing variables; the store is untouched.
    With a complete environment [main] does what [run_etl] does on the
    constructed object, an exception of [run_etl] being wrapped once more,
    with line 27 of the script. *)
Theorem main_outcomes :
  forall (getenv : string -> option string) (certifi_where : string)
         (dataset_download : option string -> result string)
         (glob_csv : string -> list string)
         (read_csv : string -> result DataFrame)
         (str_of_num : number -> string) (to_double : string -> option number)
         (w : Mongo),
    ((exists k, In k required_names /\ falsy (getenv k) = true) ->
     main getenv certifi_where dataset_download glob_csv read_csv str_of_num
       to_double w
     = (Raise (CustomerChurnException
                 (CustomerChurnException
                    (ValueError
                       (missing_message
                          (filter (fun k => falsy (getenv k)) required_names)))
                    (Some 47%nat) (Some etl_file))
                 (Some 26%nat) (Some script_file)) 33,
        w)) /\
    (forall self,
       CustomerChurnETL_init getenv certifi_where = Ok self ->
       main getenv certifi_where dataset_download glob_csv read_csv str_of_num
         to_double w
       = match run_etl dataset_download glob_csv read_csv str_of_num
                 to_double self w with
         | (Ok _, w') => (Ok tt, w')
         | (Raise e _, w') =>
             (Raise (CustomerChurnException e (Some 27%nat)
                       (Some script_file)) 33, w')
         end).
Proof.
  intros getenv ca dl glob rc son td w. split.
  - intros (k & Hin & Hk).
    unfold main, try_exceptM, bindM, at_lineM, lift.
    rewrite CustomerChurnETL_init_eq.
    destruct (filter (fun k => falsy (getenv k)) required_names)
      as [| k0 ks] eqn:Hf.
    + assert (Hk' : In k (filter (fun k => falsy (getenv k)) required_names))
        by (apply filter_In; split; assumption).
      rewrite Hf in Hk'. contradiction.
    + reflexivity.
  - intros self Hinit.
    unfold main, try_exceptM, bindM, at_lineM, lift, ret.
    rewrite Hinit. cbn [at_line].
    destruct (run_etl dl glob rc son td self w) as [[u | e l] w'];
      [ destruct u | ]; reflexivity.
Qed.

Lemma main_outcomes_witness :
  main partial_env example_ca_file example_download one_csv example_read_csv
    whole_number_text decimal_literal store_up
  = (Raise (CustomerChurnException
              (CustomerChurnException
                 (ValueError
                    (missing_message
                       (filter (fun k => falsy (partial_env k))
                          required_names)))
                 (Some 47%nat) (Some etl_file))
              (Some 26%nat) (Some script_file)) 33,
     store_up) /\
  fst (main full_env example_ca_file example_download one_csv example_read_csv
         whole_number_text decimal_literal store_up) = Ok tt.
Proof.
  split.
  - apply (proj1 (main_outcomes partial_env example_ca_file example_download
                    one_csv example_read_csv whole_number_text decimal_literal
                    store_up)).
    exists "MONGODB_DATABASE"%string. split; [ simpl; tauto | reflexivity ].
  - rewrite (proj2 (main_outcomes full_env example_ca_file example_download
                      one_csv example_read_csv whole_number_text
                      decimal_literal store_up) example_etl eq_refl).
    reflexivity.
Defined.

(** X9.  Extraction wraps what its collaborators raise: an exception of the
    download surfaces as a [CustomerChurnException] around it with line 78,
    an exception of the parser as one with line 84; and when the directory
    does not hold exactly one CSV file, the outcome is the [ValueError] of
    line 82 whatever the parser is. *)
Theorem extract_data_collaborator_errors :
  forall (dataset_download : option string -> result string)
         (glob_csv : string -> list string)
         (read_csv : string -> result DataFrame)
         (self : CustomerChurnETL),
    (forall e l,
       dataset_download (data_source self) = Raise e l ->
       extract_data dataset_download glob_csv read_csv self
       = Raise (CustomerChurnException e (Some 78%nat) (Some etl_file)) 94) /\
    (forall dir f e l,
       dataset_download (data_source self) = Ok dir ->
       glob_csv dir = [f] ->
       read_csv f = Raise e l ->
       extract_data dataset_download glob_csv read_csv self
       = Raise (CustomerChurnException e (Some 84%nat) (Some etl_file)) 94) /\
    (forall dir (any_read_csv : string -> result DataFrame),
       dataset_download (data_source self) = Ok dir ->
       List.length (glob_csv dir) <> 1%nat ->
       extract_data dataset_download glob_csv any_read_csv self
       = Raise (CustomerChurnException
                  (ValueError
                     "Expected exactly one CSV file in dataset directory")
                  (Some 82%nat) (Some etl_file)) 94).
Proof.
  intros dl glob rc self. split; [ | split ].
  - intros e l H. unfold extract_data. rewrite H. reflexivity.
  - intros dir f e l Hdl Hg Hrc. unfold extract_data.
    rewrite Hdl. simpl. rewrite Hg. simpl. rewrite Hrc. reflexivity.
  - intros dir rc' Hdl Hlen. unfold extract_data. rewrite Hdl. simpl.
    destruct (glob dir) as [| f [| g fs]]; simpl in *;
      [ reflexivity | contradiction Hlen; reflexivity | reflexivity ].
Qed.

Lemma extract_data_collaborator_errors_witness :
  extract_data example_download one_csv example_read_csv
    (mk_CustomerChurnETL None None None None example_ca_file)
  = Raise (CustomerChurnException (LibraryError "TypeError")
             (Some 78%nat) (Some etl_file)) 94 /\
  extract_data example_download one_csv
    (fun _ => Raise (LibraryError "pandas.errors.ParserError") 0) example_etl
  = Raise (CustomerChurnException (LibraryError "pandas.errors.ParserError")
             (Some 84%nat) (Some etl_file)) 94 /\
  extract_data example_download no_csv
    (fun _ => Raise (LibraryError "pandas.errors.ParserError") 0) example_etl
  = Raise (CustomerChurnException
             (ValueError "Expected exactly one CSV file in dataset directory")
             (Some 82%nat) (Some etl_file)) 94.
Proof.
  split; [ | split ].
  - apply (proj1 (extract_data_collaborator_errors example_download one_csv
                    example_read_csv
                    (mk_CustomerChurnETL None None None None example_ca_file))
             _ 0%nat).
    reflexivity.
  - apply (proj1 (proj2 (extract_data_collaborator_errors example_download
                           one_csv
                           (fun _ => Raise (LibraryError
                                              "pandas.errors.ParserError") 0)
                           example_etl))
             "/cache/telco"%string "/cache/telco/churn.csv"%string _ 0%nat);
      reflexivity.
  - apply (proj2 (proj2 (extract_data_collaborator_errors example_download
                           no_csv example_read_csv example_etl))
             "/cache/telco"%string).
    + reflexivity.
    + simpl. discriminate.
Defined.

(** ** More on the transformation *)

Lemma subsequence_length {A : Type} (l m : list A) :
  subsequence l m -> (List.length l <= List.length m)%nat.
Proof.
  induction 1; simpl; lia.
Qed.

Lemma keep_first_fixpoint (key : list cell -> cell) (rs : list (list cell)) :
  forall seen,
    distinct_keys (map key rs) = true ->
    (forall r, In r rs -> existsb (cell_eqb (key r)) seen = false) ->
    keep_first key seen rs = rs.
Proof.
  induction rs as [| r rs IH]; intros seen Hd Hs; simpl; [ reflexivity | ].
  rewrite (Hs r (or_introl eq_refl)).
  simpl in Hd. apply Bool.andb_true_iff in Hd. destruct Hd as [Hr Hd].
  apply Bool.negb_true_iff in Hr.
  f_equal. apply IH; [ exact Hd | ].
  intros r' Hin. simpl. rewrite (Hs r' (or_intror Hin)), Bool.orb_false_r.
  destruct (cell_eqb (key r') (key r)) eqn:He; [ | reflexivity ].
  assert (Hex : existsb (cell_eqb (key r)) (map key rs) = true).
  { apply existsb_exists. exists (key r'). split.
    - apply in_map, Hin.
    - rewrite cell_eqb_sym. exact He. }
  congruence.
Qed.

Lemma index_of_In (name : string) (cols : list string) :
  In name cols <-> exists i, index_of name cols = Some i.
Proof.
  induction cols as [| c cs IH]; simpl.
  - split; [ tauto | intros (i & H); discriminate H ].
  - destruct (String.eqb c name) eqn:Hc.
    + apply String.eqb_eq in Hc. split; [ eauto | intros _; left; exact Hc ].
    + apply String.eqb_neq in Hc. split.
      * intros [H | H]; [ contradiction | ].
        apply IH in H. destruct H as (i & ->). simpl. eauto.
      * intros (i & H). right. apply IH.
        destruct (index_of name cs) as [j |]; [ eauto | discriminate H ].
Qed.

Lemma index_of_None (name : string) (cols : list string) :
  ~ In name cols -> index_of name cols = None.
Proof.
  intros H. destruct (index_of name cols) as [i |] eqn:Hi; [ | reflexivity ].
  contradiction H. apply index_of_In. eauto.
Qed.

(** X10.  [drop_duplicates] raises [KeyError] when the frame has no column of
    the given name.  Otherwise it keeps the columns, never adds a row, is
    idempotent, and gives the frame back unchanged when the keys of that
    column are already pairwise distinct. *)
Theorem drop_duplicates_properties :
  forall (subset : string) (df : DataFrame),
    (~ In subset (columns df) ->
     drop_duplicates subset df = Raise (KeyError subset) 0) /\
    (forall df',
       drop_duplicates subset df = Ok df' ->
       columns df' = columns df /\
       (List.length (rows df') <= List.length (rows df))%nat /\
       drop_duplicates subset df' = Ok df' /\
       (forall i,
          index_of subset (columns df) = Some i ->
          distinct_keys (map (cell_at i) (rows df)) = true ->
          df' = df)).
Proof.
  intros subset df. split.
  - intros H. unfold drop_duplicates. rewrite (index_of_None _ _ H).
    reflexivity.
  - intros df'. unfold drop_duplicates.
    destruct (index_of subset (columns df)) as [i |] eqn:Hi;
      [ | discriminate ].
    intros H. inversion H; subst df'. cbn [columns rows].
    split; [ reflexivity | ]. split; [ | split ].
    + apply subsequence_length, keep_first_subsequence.
    + rewrite Hi. f_equal. f_equal.
      apply keep_first_fixpoint; [ apply keep_first_distinct | reflexivity ].
    + intros j Hj Hd. inversion Hj; subst j.
      rewrite keep_first_fixpoint by (try assumption; reflexivity).
      destruct df; reflexivity.
Qed.

Lemma drop_duplicates_properties_witness :
  drop_duplicates "customer_id" example_frame
    = Raise (KeyError "customer_id") 0 /\
  drop_duplicates "customerID"
    (mk_DataFrame (columns example_frame)
       (keep_first (cell_at 0) [] (rows example_frame)))
  = Ok (mk_DataFrame (columns example_frame)
          (keep_first (cell_at 0) [] (rows example_frame))).
Proof.
  split.
  - apply (proj1 (drop_duplicates_properties "customer_id" example_frame)).
    simpl. intros [H | [H | [H | []]]]; discriminate H.
  - apply (proj2 (drop_duplicates_properties "customerID" example_frame)
             _ eq_refl).
Defined.

(** X11.  On a well-formed table, [transform_data] returns a batch exactly
    when the table is not empty and has the columns "customerID",
    "SeniorCitizen" and "TotalCharges"; on a non-empty table, the first of
    the three that is absent is reported by a [KeyError] inside the
    [CustomerChurnException], with the line of the statement that needed
    it. *)
Theorem transform_data_requires_columns :
  forall (str_of_num : number -> string) (to_double : string -> option number)
         (df : DataFrame),
    well_formed df = true ->
    ((exists recs, transform_data str_of_num to_double df = Ok recs) <->
     empty df = false /\
     In "customerID"%string (columns df) /\
     In "SeniorCitizen"%string (columns df) /\
     In "TotalCharges"%string (columns df)) /\
    (empty df = false -> ~ In "customerID"%string (columns df) ->
     exists payload,
       transform_data str_of_num to_double df
       = Raise (CustomerChurnException (KeyError payload)
                  (Some 108%nat) (Some etl_file)) 135) /\
    (empty df = false -> In "customerID"%string (columns df) ->
     ~ In "SeniorCitizen"%string (columns df) ->
     transform_data str_of_num to_double df
     = Raise (CustomerChurnException (KeyError "SeniorCitizen")
                (Some 111%nat) (Some etl_file)) 135) /\
    (empty df = false -> In "customerID"%string (columns df) ->
     In "SeniorCitizen"%string (columns df) ->
     ~ In "TotalCharges"%string (columns df) ->
     transform_data str_of_num to_double df
     = Raise (CustomerChurnException (KeyError "TotalCharges")
                (Some 115%nat) (Some etl_file)) 135).
Proof.
  intros son td df _. rewrite transform_data_eq.
  split; [ | split; [ | split ] ].
  - split.
    + intros (recs & H).
      destruct (empty df); [ discriminate | ].
      destruct (index_of "customerID" (columns df)) as [ci |] eqn:Hc;
        [ | discriminate ].
      destruct (index_of "SeniorCitizen" (columns df)) as [si |] eqn:Hs;
        [ | discriminate ].
      destruct (index_of "TotalCharges" (columns df)) as [ti |] eqn:Ht;
        [ | discriminate ].
      repeat split; apply index_of_In; eauto.
    + intros (He & Hc & Hs & Ht).
      apply index_of_In in Hc, Hs, Ht.
      destruct Hc as (ci & ->), Hs as (si & ->), Ht as (ti & ->).
      rewrite He. eauto.
  - intros He Hc. rewrite He, (index_of_None _ _ Hc). eexists. reflexivity.
  - intros He Hc Hs. apply index_of_In in Hc. destruct Hc as (ci & ->).
    rewrite He, (index_of_None _ _ Hs). reflexivity.
  - intros He Hc Hs Ht. apply index_of_In in Hc, Hs.
    destruct Hc as (ci & ->), Hs as (si & ->).
    rewrite He, (index_of_None _ _ Ht). reflexivity.
Qed.

Lemma transform_data_requires_columns_witness :
  transform_data whole_number_text decimal_literal
    (mk_DataFrame ["customerID"; "TotalCharges"] [[VStr "A"; VStr "1"]])
  = Raise (CustomerChurnException (KeyError "SeniorCitizen")
             (Some 111%nat) (Some etl_file)) 135 /\
  exists recs,
    transform_data whole_number_text decimal_literal example_frame = Ok recs.
Proof.
  split.
  - apply (proj1 (proj2 (proj2 (transform_data_requires_columns
                                  whole_number_text decimal_literal
                                  (mk_DataFrame ["customerID"; "TotalCharges"]
                                     [[VStr "A"; VStr "1"]]) eq_refl))));
      simpl.
    + reflexivity.
    + left. reflexivity.
    + intros [H | [H | []]]; discriminate H.
  - apply (proj1 (transform_data_requires_columns whole_number_text
                    decimal_literal example_frame eq_refl)).
    simpl. repeat split; tauto.
Defined.

Lemma map_fst_combine (cols : list string) :
  forall r : list cell,
    List.length r = List.length cols -> map fst (combine cols r) = cols.
Proof.
  induction cols as [| c cs IH]; intros r Hlen; [ reflexivity | ].
  destruct r as [| v r]; simpl in *; [ discriminate | ].
  f_equal. apply IH. lia.
Qed.

(** X12.  The transformation touches two columns only: in the batch made
    from a well-formed table, every record has the columns of the table as
    its keys, in their order, and under every key other than
    "SeniorCitizen" and "TotalCharges" the value is the raw value of the
    record's row. *)
Theorem transform_data_leaves_other_columns :
  forall (str_of_num : number -> string) (to_double : string -> option number)
         (df : DataFrame) (recs : list record),
    well_formed df = true ->
    transform_data str_of_num to_double df = Ok recs ->
    (forall rec, In rec recs -> map fst rec = columns df) /\
    exists ci si ti,
      index_of "customerID" (columns df) = Some ci /\
      recs = map (fun r => combine (columns df)
                             (transform_row str_of_num to_double si ti r))
                 (keep_first (cell_at ci) [] (rows df)) /\
      forall r name j,
        In r (keep_first (cell_at ci) [] (rows df)) ->
        index_of name (columns df) = Some j ->
        name <> "SeniorCitizen"%string -> name <> "TotalCharges"%string ->
        lookup name
          (combine (columns df) (transform_row str_of_num to_double si ti r))
        = Some (cell_at j r).
Proof.
  intros son td df recs Hwf H.
  destruct (transform_data_ok son td df recs H)
    as (ci & si & ti & Hc & Hs & Ht & _ & ->).
  assert (Hlen : forall r,
    In r (keep_first (cell_at ci) [] (rows df)) ->
    List.length r = List.length (columns df)).
  { intros r Hin. apply well_formed_row; [ exact Hwf | ].
    eapply keep_first_In, Hin. }
  split.
  - intros rec Hin. apply in_map_iff in Hin. destruct Hin as (r & <- & Hin).
    apply map_fst_combine. unfold transform_row.
    rewrite !update_at_length. apply Hlen, Hin.
  - exists ci, si, ti. split; [ exact Hc | ]. split; [ reflexivity | ].
    intros r name j Hin Hj Hns Hnt.
    assert (Hjs : si <> j).
    { intros ->. apply Hns. symmetry. apply (index_of_inj _ _ _ _ Hs Hj). }
    assert (Hjt : ti <> j).
    { intros ->. apply Hnt. symmetry. apply (index_of_inj _ _ _ _ Ht Hj). }
    rewrite (lookup_combine name (columns df) j).
    + unfold transform_row.
      rewrite !cell_at_update_at_other by assumption. reflexivity.
    + exact Hj.
    + unfold transform_row. rewrite !update_at_length.
      rewrite (Hlen r Hin). apply (index_of_lt _ _ _ Hj).
Qed.

Lemma transform_data_leaves_other_columns_witness :
  (forall rec, In rec example_batch -> map fst rec = columns example_frame) /\
  exists ci si ti,
    index_of "customerID" (columns example_frame) = Some ci /\
    example_batch
    = map (fun r => combine (columns example_frame)
                      (transform_row whole_number_text decimal_literal si ti r))
          (keep_first (cell_at ci) [] (rows example_frame)) /\
    forall r name j,
      In r (keep_first (cell_at ci) [] (rows example_frame)) ->
      index_of name (columns example_frame) = Some j ->
      name <> "SeniorCitizen"%string -> name <> "TotalCharges"%string ->
      lookup name
        (combine (columns example_frame)
           (transform_row whole_number_text decimal_literal si ti r))
      = Some (cell_at j r).
Proof.
  apply (transform_data_leaves_other_columns whole_number_text decimal_literal
           example_frame example_batch); reflexivity.
Defined.

(** X13.  The normalisation of "SeniorCitizen" yields "Yes", "No" or the
    missing value and nothing else, and it cannot be applied twice: the
    image of any of its own results is the missing value, so mapping a
    column that was already mapped leaves nothing but missing values. *)
Theorem senior_citizen_map_twice :
  (forall c,
     map_dict senior_citizen_map c = VStr "Yes" \/
     map_dict senior_citizen_map c = VStr "No" \/
     map_dict senior_citizen_map c = VNaN) /\
  (forall c,
     map_dict senior_citizen_map (map_dict senior_citizen_map c) = VNaN) /\
  (forall s : Series,
     Series_map senior_citizen_map (Series_map senior_citizen_map s)
     = map (fun _ => VNaN) s).
Proof.
  assert (H3 : forall c,
    map_dict senior_citizen_map c = VStr "Yes" \/
    map_dict senior_citizen_map c = VStr "No" \/
    map_dict senior_citizen_map c = VNaN).
  { intros c. rewrite map_dict_senior_citizen. unfold spec_senior_citizen.
    destruct (cell_eqb _ _); [ left; reflexivity | ].
    destruct (cell_eqb _ _); [ right; left | right; right ]; reflexivity. }
  assert (H2 : forall c,
    map_dict senior_citizen_map (map_dict senior_citizen_map c) = VNaN).
  { intros c. destruct (H3 c) as [-> | [-> | ->]]; reflexivity. }
  split; [ exact H3 | ]. split; [ exact H2 | ].
  intros s. unfold Series_map. rewrite map_map.
  apply map_ext. exact H2.
Qed.

(** ** The text of an exception *)

(** X15.  The text of a [CustomerChurnException] names the file and the
    line it recorded ("None" for each when it was built outside a handler)
    and embeds the text of the exception it wraps; through any number of
    wrappings the text of the original exception is still part of it. *)
Theorem exception_text_keeps_root_cause :
  forall (base_str : exn -> string),
    (forall e tb,
       exn_str base_str (CustomerChurnException_init e (Some tb))
       = ("Error occurred in python script [" ++ co_filename tb
          ++ "] at line number [" ++ str_nat (tb_lineno tb)
          ++ "] with error message [" ++ exn_str base_str e ++ "]")%string) /\
    (forall e,
       exn_str base_str (CustomerChurnException_init e None)
       = ("Error occurred in python script [None] at line number [None]"
          ++ " with error message [" ++ exn_str base_str e ++ "]")%string) /\
    (forall e,
       exists pre post,
         exn_str base_str e
         = (pre ++ base_str (root_cause e) ++ post)%string).
Proof.
  intros base_str. split; [ | split ].
  - intros e tb. reflexivity.
  - intros e. reflexivity.
  - induction e as [msg | key | name | m IH l f].
    + exists ""%string, ""%string. simpl. now rewrite append_empty_r.
    + exists ""%string, ""%string. simpl. now rewrite append_empty_r.
    + exists ""%string, ""%string. simpl. now rewrite append_empty_r.
    + destruct IH as (pre & post & Heq).
      exists ("Error occurred in python script [" ++ str_file_name f
              ++ "] at line number [" ++ str_lineno l
              ++ "] with error message [" ++ pre)%string,
             (post ++ "]")%string.
      cbn [exn_str root_cause]. rewrite Heq.
      rewrite !append_assoc. reflexivity.
Qed.

(** ** The log file *)

Lemma digit_inj (a b : nat) :
  (a < 10)%nat -> (b < 10)%nat -> digit a = digit b -> a = b.
Proof.
  unfold digit. intros Ha Hb H.
  apply (f_equal nat_of_ascii) in H.
  rewrite !nat_ascii_embedding in H by lia. lia.
Qed.

Lemma chars_inj (a b c d : ascii) (s t : string) :
  String a (String b s) = String c (String d t) ->
  a = c /\ b = d /\ s = t.
Proof.
  intros H. inversion H. auto.
Qed.

Lemma pad2_inj (a b : nat) :
  (a < 100)%nat -> (b < 100)%nat -> pad2 a = pad2 b -> a = b.
Proof.
  unfold pad2. intros Ha Hb H.
  apply chars_inj in H. destruct H as (H1 & H0 & _).
  assert (Ha1 : (a / 10 < 10)%nat) by (apply Nat.Div0.div_lt_upper_bound; lia).
  assert (Hb1 : (b / 10 < 10)%nat) by (apply Nat.Div0.div_lt_upper_bound; lia).
  rewrite (Nat.mod_small (a / 10)), (Nat.mod_small (b / 10)) in H1 by lia.
  apply digit_inj in H1; [ | lia | lia ].
  apply digit_inj in H0;
    [ | apply Nat.mod_upper_bound; lia | apply Nat.mod_upper_bound; lia ].
  rewrite (Nat.div_mod_eq a 10), (Nat.div_mod_eq b 10). lia.
Qed.

Lemma pad4_inj (a b : nat) :
  (a < 10 * 1000)%nat -> (b < 10 * 1000)%nat -> pad4 a = pad4 b -> a = b.
Proof.
  unfold pad4. intros Ha Hb H.
  apply chars_inj in H. destruct H as (H3 & H2 & H).
  assert (H10 : (a mod 100 = b mod 100)%nat).
  { apply pad2_inj.
    - apply Nat.mod_upper_bound. lia.
    - apply Nat.mod_upper_bound. lia.
    - unfold pad2 in *. apply chars_inj in H. destruct H as (H1 & H0 & _).
      assert (Ea : ((a mod 100) / 10 mod 10 = a / 10 mod 10)%nat).
      { rewrite (Nat.div_mod_eq a 100) at 2.
        replace (100 * (a / 100) + a mod 100)%nat
          with (a mod 100 + (a / 100 * 10) * 10)%nat by lia.
        rewrite Nat.div_add by lia.
        rewrite Nat.Div0.add_mod, Nat.Div0.mod_mul, Nat.add_0_r.
        rewrite Nat.Div0.mod_mod. reflexivity. }
      assert (Eb : ((b mod 100) / 10 mod 10 = b / 10 mod 10)%nat).
      { rewrite (Nat.div_mod_eq b 100) at 2.
        replace (100 * (b / 100) + b mod 100)%nat
          with (b mod 100 + (b / 100 * 10) * 10)%nat by lia.
        rewrite Nat.div_add by lia.
        rewrite Nat.Div0.add_mod, Nat.Div0.mod_mul, Nat.add_0_r.
        rewrite Nat.Div0.mod_mod. reflexivity. }
      assert (Fa : ((a mod 100) mod 10 = a mod 10)%nat).
      { rewrite (Nat.div_mod_eq a 100) at 2.
        replace (100 * (a / 100) + a mod 100)%nat
          with (a mod 100 + (a / 100 * 10) * 10)%nat by lia.
        rewrite Nat.Div0.mod_add. reflexivity. }
      assert (Fb : ((b mod 100) mod 10 = b mod 10)%nat).
      { rewrite (Nat.div_mod_eq b 100) at 2.
        replace (100 * (b / 100) + b mod 100)%nat
          with (b mod 100 + (b / 100 * 10) * 10)%nat by lia.
        rewrite Nat.Div0.mod_add. reflexivity. }
      rewrite Ea, Eb, Fa, Fb, H1, H0. reflexivity. }
  assert (H100 : (a / 100 = b / 100)%nat).
  { assert (Ha3 : (a / 1000 < 10)%nat)
      by (apply Nat.Div0.div_lt_upper_bound; lia).
    assert (Hb3 : (b / 1000 < 10)%nat)
      by (apply Nat.Div0.div_lt_upper_bound; lia).
    rewrite (Nat.mod_small (a / 1000)), (Nat.mod_small (b / 1000)) in H3
      by lia.
    apply digit_inj in H3; [ | lia | lia ].
    apply digit_inj in H2;
      [ | apply Nat.mod_upper_bound; lia | apply Nat.mod_upper_bound; lia ].
    rewrite (Nat.div_mod_eq (a / 100) 10), (Nat.div_mod_eq (b / 100) 10).
    rewrite !Nat.Div0.div_div. change (100 * 10)%nat with 1000%nat.
    rewrite H3, H2. reflexivity. }
  rewrite (Nat.div_mod_eq a 100), (Nat.div_mod_eq b 100). lia.
Qed.

Lemma pad2_app_inj (a b : nat) (s t : string) :
  (pad2 a ++ s = pad2 b ++ t)%string -> pad2 a = pad2 b /\ s = t.
Proof.
  unfold pad2. cbn [append]. intros H.
  apply chars_inj in H. destruct H as (H1 & H0 & Hs).
  rewrite H1, H0. split; [ reflexivity | exact Hs ].
Qed.

Lemma pad4_app_inj (a b : nat) (s t : string) :
  (pad4 a ++ s = pad4 b ++ t)%string -> pad4 a = pad4 b /\ s = t.
Proof.
  unfold pad4. cbn [append]. intros H.
  apply chars_inj in H. destruct H as (H3 & H2 & H).
  apply pad2_app_inj in H. destruct H as (H10 & Hs).
  rewrite H3, H2, H10. split; [ reflexivity | exact Hs ].
Qed.

Lemma sep_inj (c : ascii) (s t : string) : String c s = String c t -> s = t.
Proof.
  intros H. inversion H. reflexivity.
Qed.

Lemma valid_datetime_bounds (t : datetime) :
  valid_datetime t = true ->
  (year t < 10 * 1000 /\ month t < 100 /\ day t < 100 /\
   hour t < 100 /\ minute t < 100 /\ second t < 100)%nat.
Proof.
  unfold valid_datetime. intros H.
  repeat (apply Bool.andb_true_iff in H; destruct H as [H ?]).
  repeat match goal with
         | X : (_ <=? _)%nat = true |- _ => apply Nat.leb_le in X
         | X : (_ <? _)%nat = true |- _ => apply Nat.ltb_lt in X
         end.
  lia.
Qed.

Lemma ends_with_sep_app (a : string) (c : ascii) (s : string) :
  ends_with_sep (a ++ String c s) = ends_with_sep (String c s).
Proof.
  induction a as [| x a IH]; [ reflexivity | ].
  rewrite <- IH. destruct a; reflexivity.
Qed.

Lemma path_join_relative (a : string) (c : ascii) (s : string) :
  c <> "/"%char ->
  path_join a (String c s)
  = match a with
    | EmptyString => String c s
    | _ => if ends_with_sep a then (a ++ String c s)%string
           else (a ++ "/" ++ String c s)%string
    end.
Proof.
  intros Hc. unfold path_join.
  destruct c as [[] [] [] [] [] [] [] []]; try reflexivity.
  contradiction Hc. reflexivity.
Qed.

Lemma digit_not_sep (d : nat) : (d < 10)%nat -> digit d <> "/"%char.
Proof.
  unfold digit. intros Hd H. apply (f_equal nat_of_ascii) in H.
  rewrite nat_ascii_embedding in H by lia.
  change (nat_of_ascii "/") with 47%nat in H. lia.
Qed.

(** X16.  The log file of a run: for a timestamp in the ranges [datetime]
    guarantees, with a four-digit year, the file name has 23 characters;
    two timestamps give the same name only if they agree to the second, so
    runs started in different seconds write different files; and the file
    lies directly in the directory "logs" under the working directory. *)
Theorem log_file_name_properties :
  forall (t1 t2 : datetime) (cwd : string),
    valid_datetime t1 = true ->
    valid_datetime t2 = true ->
    String.length (LOG_FILE_NAME t1) = 23%nat /\
    (LOG_FILE_NAME t1 = LOG_FILE_NAME t2 -> t1 = t2) /\
    LOG_FILE_PATH cwd t1 = (LOGS_DIR cwd ++ "/" ++ LOG_FILE_NAME t1)%string /\
    (cwd <> ""%string -> ends_with_sep cwd = false ->
     LOGS_DIR cwd = (cwd ++ "/logs")%string).
Proof.
  intros t1 t2 cwd Hv1 Hv2.
  destruct (valid_datetime_bounds t1 Hv1) as (Hy1 & Hm1 & Hd1 & Hh1 & Hi1 & Hs1).
  destruct (valid_datetime_bounds t2 Hv2) as (Hy2 & Hm2 & Hd2 & Hh2 & Hi2 & Hs2).
  split; [ | split; [ | split ] ].
  - reflexivity.
  - unfold LOG_FILE_NAME, strftime_log. rewrite !append_assoc.
    cbn [append]. intros H.
    apply pad2_app_inj in H. destruct H as (Hmonth & H). apply sep_inj in H.
    apply pad2_app_inj in H. destruct H as (Hday & H). apply sep_inj in H.
    apply pad4_app_inj in H. destruct H as (Hyear & H). apply sep_inj in H.
    apply pad2_app_inj in H. destruct H as (Hhour & H). apply sep_inj in H.
    apply pad2_app_inj in H. destruct H as (Hminute & H). apply sep_inj in H.
    apply pad2_app_inj in H. destruct H as (Hsecond & _).
    apply pad2_inj in Hmonth, Hday, Hhour, Hminute, Hsecond; try assumption.
    apply pad4_inj in Hyear; try assumption.
    destruct t1, t2. simpl in *. congruence.
  - unfold LOG_FILE_PATH.
    assert (Hdir : LOGS_DIR cwd <> ""%string /\
                   ends_with_sep (LOGS_DIR cwd) = false).
    { unfold LOGS_DIR.
      rewrite (path_join_relative cwd "l" "ogs") by discriminate.
      destruct cwd as [| c cwd']; [ split; [ discriminate | reflexivity ] | ].
      destruct (ends_with_sep (String c cwd')).
      - split; [ discriminate | ].
        apply (ends_with_sep_app (String c cwd') "l" "ogs").
      - split; [ discriminate | ].
        change (String c cwd' ++ "/" ++ "logs")%string
          with (String c cwd' ++ String "/" "logs")%string.
        rewrite (ends_with_sep_app (String c cwd') "/" "logs"). reflexivity. }
    destruct Hdir as (Hne & Hend).
    unfold LOG_FILE_NAME, strftime_log, pad2 at 1. cbn [append].
    rewrite path_join_relative.
    + rewrite Hend. destruct (LOGS_DIR cwd); [ contradiction | reflexivity ].
    + apply digit_not_sep.
      assert ((month t1 / 10 < 10)%nat)
        by (apply Nat.Div0.div_lt_upper_bound; lia).
      apply Nat.mod_upper_bound. lia.
  - intros Hne Hend. unfold LOGS_DIR.
    rewrite (path_join_relative cwd "l" "ogs") by discriminate.
    rewrite Hend. destruct cwd; [ contradiction | reflexivity ].
Qed.

Lemma log_file_name_properties_witness :
  String.length (LOG_FILE_NAME example_now) = 23%nat /\
  (LOG_FILE_NAME example_now
   = LOG_FILE_NAME (mk_datetime 2026 11 3 17 25 10) ->
   example_now = mk_datetime 2026 11 3 17 25 10) /\
  LOG_FILE_PATH "/app" example_now
  = (LOGS_DIR "/app" ++ "/" ++ LOG_FILE_NAME example_now)%string /\
  ("/app"%string <> ""%string -> ends_with_sep "/app" = false ->
   LOGS_DIR "/app" = ("/app" ++ "/logs")%string).
Proof.
  apply (log_file_name_properties example_now
           (mk_datetime 2026 11 3 17 25 10) "/app");
    reflexivity.
Defined.
